(** * nMigen: Yosys discovery ([nmigen/_yosys.py]) and the Gowin GW1N
      platform tables ([nmigen/vendor/gowin_gw1n.py])

    A shallow embedding of the two Python modules.  A Python [str] is a
    [string]: a sequence of characters, each a code point below 256.  On
    that range the classes used by the code are exact: [\d] matches the ten
    ASCII digits only, [.] matches everything but the line feed, and
    [str.strip] removes the code points listed in [py_isspace].  Python
    integers are unbounded, hence [Z].  The interpreter is CPython 3.11
    with its default settings: [int] refuses a string of more than 4300
    digits, and [assert] statements are executed. *)

From Stdlib Require Import String Ascii List ZArith Bool Lia DecimalString.
Import ListNotations.

Local Open Scope string_scope.
Local Open Scope Z_scope.

(** ** Python string primitives used by the modules *)

Module PyStr.

Definition nl : ascii := "010"%char.
Definition dquote : ascii := "034"%char.
Definition squote : ascii := "039"%char.
Definition backslash : ascii := "092"%char.

(** [\d] of the [re] module, on code points below 256. *)
Definition is_digit (c : ascii) : bool :=
  let n := nat_of_ascii c in (48 <=? n)%nat && (n <=? 57)%nat.

Definition digit_val (c : ascii) : Z := Z.of_nat (nat_of_ascii c) - 48.

(** The number a string of decimal digits stands for, most significant
    digit first: what [int(s)] returns when it returns ([int_of_str] below
    is the call itself, with its error). *)
Fixpoint int_acc (acc : Z) (s : string) : Z :=
  match s with
  | EmptyString => acc
  | String c s' => int_acc (10 * acc + digit_val c) s'
  end.

Definition int (s : string) : Z := int_acc 0 s.

Fixpoint all_digits (s : string) : bool :=
  match s with
  | EmptyString => true
  | String c s' => is_digit c && all_digits s'
  end.

(** A greedy [\d*]: the longest run of digits at the front, and the rest. *)
Fixpoint span_digits (s : string) : string * string :=
  match s with
  | EmptyString => (EmptyString, EmptyString)
  | String c s' =>
      if is_digit c
      then let (d, r) := span_digits s' in (String c d, r)
      else (EmptyString, s)
  end.

(** A greedy [.*]: the longest run of characters other than the line feed. *)
Fixpoint span_line (s : string) : string * string :=
  match s with
  | EmptyString => (EmptyString, EmptyString)
  | String c s' =>
      if Ascii.eqb c nl
      then (EmptyString, s)
      else let (d, r) := span_line s' in (String c d, r)
  end.

(** Matching a literal at the front: the rest of the subject, if any. *)
Fixpoint drop_prefix (p s : string) : option string :=
  match p with
  | EmptyString => Some s
  | String a p' =>
      match s with
      | EmptyString => None
      | String b s' => if Ascii.eqb a b then drop_prefix p' s' else None
      end
  end.

Definition starts_with (p s : string) : bool :=
  match drop_prefix p s with Some _ => true | None => false end.

(** [t in s] for two strings: [t] occurs in [s] as a contiguous run. *)
Fixpoint contains (s t : string) : bool :=
  starts_with t s ||
  match s with
  | EmptyString => false
  | String _ s' => contains s' t
  end.

(** [s.split(sep)] for a one-character separator. *)
Fixpoint split (sep : ascii) (s : string) : list string :=
  match s with
  | EmptyString => [EmptyString]
  | String c s' =>
      if Ascii.eqb c sep
      then EmptyString :: split sep s'
      else match split sep s' with
           | x :: xs => String c x :: xs
           | [] => [String c EmptyString]
           end
  end.

(** [sep.join(l)]. *)
Fixpoint join (sep : string) (l : list string) : string :=
  match l with
  | [] => EmptyString
  | [x] => x
  | x :: xs => x ++ sep ++ join sep xs
  end.

(** [str.isspace] of one character, on code points below 256. *)
Definition py_isspace (c : ascii) : bool :=
  let n := nat_of_ascii c in
  ((9 <=? n) && (n <=? 13) || (28 <=? n) && (n <=? 32)
   || (n =? 133) || (n =? 160))%nat.

Fixpoint lstrip (s : string) : string :=
  match s with
  | EmptyString => EmptyString
  | String c s' => if py_isspace c then lstrip s' else s
  end.

Fixpoint rstrip (s : string) : string :=
  match s with
  | EmptyString => EmptyString
  | String c s' =>
      match rstrip s' with
      | EmptyString => if py_isspace c then EmptyString
                       else String c EmptyString
      | r => String c r
      end
  end.

(** [s.strip()]. *)
Definition strip (s : string) : string := rstrip (lstrip s).

Fixpoint mem_char (c : ascii) (s : string) : bool :=
  match s with
  | EmptyString => false
  | String d s' => Ascii.eqb c d || mem_char c s'
  end.

Definition hex_digit (n : nat) : ascii :=
  if (n <? 10)%nat then ascii_of_nat (48 + n) else ascii_of_nat (87 + n).

(** The body of [repr(s)]: each character as it is printed between the
    quotes [q]. *)
Definition repr_char (q c : ascii) : string :=
  let n := nat_of_ascii c in
  if Ascii.eqb c q || Ascii.eqb c backslash
  then String backslash (String c EmptyString)
  else if (n =? 9)%nat then String backslash "t"
  else if (n =? 10)%nat then String backslash "n"
  else if (n =? 13)%nat then String backslash "r"
  else if (n <? 32)%nat || ((127 <=? n) && (n <=? 160))%nat || (n =? 173)%nat
  then String backslash
         (String "x" (String (hex_digit (n / 16))
                        (String (hex_digit (n mod 16)) EmptyString)))
  else String c EmptyString.

Fixpoint repr_body (q : ascii) (s : string) : string :=
  match s with
  | EmptyString => EmptyString
  | String c s' => repr_char q c ++ repr_body q s'
  end.

(** [repr(s)], as [{!r}] formats a string: single quotes, unless the string
    holds a single quote and no double quote. *)
Definition repr (s : string) : string :=
  let q := if mem_char squote s && negb (mem_char dquote s)
           then dquote else squote in
  String q (repr_body q s ++ String q EmptyString).

End PyStr.

(** ** Exceptions, the outside world and the call log *)

(** The exceptions that can leave the code of [_yosys.py] and of the Gowin
    platform.  [YosysError] is the only class the module defines;
    [TypeError] and [AttributeError] are what Python raises when [None] is
    subscripted, matched or dereferenced; [ValueError] is what [int]
    raises on too many digits; [Foreign] stands for whatever a
    collaborator outside the module raises. *)
Inductive exn : Type :=
| YosysError (msg : string)
| TypeError (msg : string)
| ValueError (msg : string)
| AttributeError (msg : string)
| PackageNotFoundError (name : string)
| AssertionError
| Foreign (what : string).

(** Everything the module reads from outside itself.  The world stays the
    same for the time of one call: asking twice gives the same answer. *)
Record World : Type := {
  (** [os.environ] *)
  environ : string -> option string;
  (** [sys.executable] *)
  sys_executable : string;
  (** [importlib_metadata]: [None] when neither module could be imported;
      otherwise its [version] function: [None] for [PackageNotFoundError],
      [Some None] when it returns [None] (the package is installed and its
      metadata has no version), [Some (Some v)] when it returns [v]. *)
  importlib_metadata : option (string -> option (option string));
  (** [has_tool] and [require_tool] of [nmigen._toolchain]. *)
  has_tool : string -> bool;
  require_tool : string -> exn + string;
  (** [subprocess.Popen(argv, ...)] followed by [communicate(stdin)]:
      standard output, standard error and the return code. *)
  popen : list string -> string -> exn + (string * string * Z)
}.

(** The two concrete subclasses of [YosysBinary], as values. *)
Inductive YosysBinary : Type := _BuiltinYosys | _SystemYosys.

Definition YosysBinary_eqb (p q : YosysBinary) : bool :=
  match p, q with
  | _BuiltinYosys, _BuiltinYosys | _SystemYosys, _SystemYosys => true
  | _, _ => false
  end.

(** One entry of the call log: a classmethod of a proxy was entered. *)
Inductive probe : Type :=
| CallAvailable (p : YosysBinary)
| CallVersion (p : YosysBinary).

(** A computation that may raise and that appends to the call log. *)
Definition M (A : Type) : Type := list probe -> (exn + A) * list probe.

Definition ret {A} (a : A) : M A := fun tr => (inr a, tr).
Definition raise {A} (e : exn) : M A := fun tr => (inl e, tr).
Definition bind {A B} (m : M A) (k : A -> M B) : M B :=
  fun tr => match m tr with
            | (inr a, tr') => k a tr'
            | (inl e, tr') => (inl e, tr')
            end.
Definition log (ev : probe) : M unit := fun tr => (inr tt, (tr ++ [ev])%list).
Definition lift {A} (r : exn + A) : M A := fun tr => (r, tr).

Notation "x <- m ;; k" := (bind m (fun x => k))
  (at level 61, m at next level, right associativity).
Notation "m ;;; k" := (bind m (fun _ => k))
  (at level 61, right associativity).

(** A version as [version()] returns it: [(major, minor, distance)]. *)
Definition version_t : Type := Z * Z * Z.

(** ** The version patterns and the banner pattern *)

(** What [re.match] returns for the two version patterns: groups 1 and 2,
    and group 3 when the optional part took part in the match. *)
Definition match_t : Type := string * string * option string.

(** [re.match(r"^<lead>(\d+)\.(\d+)(?:<mark>(\d+))?", s)] for a literal
    [lead] and a literal [mark].  Each [\d+] is greedy and what follows it
    cannot start with a digit, so it takes the whole run of digits; the
    optional group is tried first and dropped when it does not match. *)
Definition match_version (lead mark s : string) : option match_t :=
  match PyStr.drop_prefix lead s with
  | None => None
  | Some s0 =>
      let (g1, r1) := PyStr.span_digits s0 in
      match g1, PyStr.drop_prefix "." r1 with
      | String _ _, Some r2 =>
          let (g2, r3) := PyStr.span_digits r2 in
          match g2 with
          | EmptyString => None
          | String _ _ =>
              match PyStr.drop_prefix mark r3 with
              | Some r4 =>
                  match fst (PyStr.span_digits r4) with
                  | EmptyString => Some (g1, g2, None)
                  | g3 => Some (g1, g2, Some g3)
                  end
              | None => Some (g1, g2, None)
              end
          end
      | _, _ => None
      end
  end.

(** [re.match(r"^(\d+)\.(\d+)(?:\.post(\d+))?", version)] *)
Definition builtin_version_re : string -> option match_t :=
  match_version EmptyString ".post".

(** [re.match(r"^Yosys (\d+)\.(\d+)(?:\+(\d+))?", version)] *)
Definition system_version_re : string -> option match_t :=
  match_version "Yosys " "+".

(** [sys.get_int_max_str_digits()], at its default. *)
Definition int_max_str_digits : nat := 4300.

Definition decimal (n : nat) : string :=
  NilZero.string_of_uint (Nat.to_uint n).

(** [int(s)] for a string of decimal digits: [ValueError] when there are
    more digits than the limit, leading zeros counted. *)
Definition int_of_str (s : string) : exn + Z :=
  if (int_max_str_digits <? String.length s)%nat
  then inl (ValueError
              ("Exceeds the limit (" ++ decimal int_max_str_digits
               ++ " digits) for integer string conversion: value has "
               ++ decimal (String.length s)
               ++ " digits; use sys.set_int_max_str_digits() "
               ++ "to increase the limit"))
  else inr (PyStr.int s).

(** [(int(match[1]), int(match[2]), int(match[3] or 0))], left to right:
    subscripting [None] raises [TypeError], and each [int] may raise. *)
Definition version_of_match (m : option match_t) : exn + version_t :=
  match m with
  | None => inl (TypeError "'NoneType' object is not subscriptable")
  | Some (g1, g2, g3) =>
      match int_of_str g1 with
      | inl e => inl e
      | inr major =>
          match int_of_str g2 with
          | inl e => inl e
          | inr minor =>
              match match g3 with
                    | Some d => int_of_str d
                    | None => inr 0
                    end with
              | inl e => inl e
              | inr distance => inr (major, minor, distance)
              end
          end
      end
  end.

(** One round of the group [(-- .+\n|\n)]: a line made of ["-- "] and at
    least one more character, or an empty line; the text after it. *)
Definition banner_line (s : string) : option string :=
  match s with
  | String c r =>
      if Ascii.eqb c PyStr.nl then Some r
      else
        match PyStr.drop_prefix "-- " s with
        | Some r1 =>
            match PyStr.span_line r1 with
            | (String _ _, String _ r2) => Some r2
            | _ => None
            end
        | None => None
        end
  | EmptyString => None
  end.

(** [re.sub(r"\A(-- .+\n|\n)*", "", stdout)]: the pattern matches at the
    start of the text only, and the greedy star takes banner lines for as
    long as there is one.  [fuel] bounds the rounds; each round consumes at
    least one character, so the length of the text is enough. *)
Fixpoint strip_banner_fuel (fuel : nat) (s : string) : string :=
  match fuel with
  | O => s
  | S fuel' =>
      match banner_line s with
      | Some r => strip_banner_fuel fuel' r
      | None => s
      end
  end.

Definition strip_banner (s : string) : string :=
  strip_banner_fuel (String.length s) s.

(** ** The proxies and [find_yosys] *)

Section Yosys.

Variable w : World.

Definition YOSYS_PACKAGE : string := "nmigen_yosys".
Definition YOSYS_BINARY : string := "yosys".

(** [importlib_metadata.version(name)] *)
Definition metadata_version (name : string) : exn + option string :=
  match importlib_metadata w with
  | None => inl (AttributeError "'NoneType' object has no attribute 'version'")
  | Some lookup =>
      match lookup name with
      | Some v => inr v
      | None => inl (PackageNotFoundError name)
      end
  end.

(** What a finished process gives back: [YosysError] with the stripped
    standard error on a non-zero return code, else the standard output. *)
Definition process_result (stdout stderr : string) (returncode : Z)
  : exn + string :=
  if returncode =? 0 then inr stdout
  else inl (YosysError (PyStr.strip stderr)).

(** [_BuiltinYosys.run] *)
Definition builtin_run (args : list string) (stdin : string) : exn + string :=
  match popen w (sys_executable w :: "-m" :: YOSYS_PACKAGE :: args) stdin with
  | inl e => inl e
  | inr (stdout, stderr, returncode) =>
      process_result stdout stderr returncode
  end.

(** [_SystemYosys.run] *)
Definition system_run (args : list string) (stdin : string) : exn + string :=
  match require_tool w YOSYS_BINARY with
  | inl e => inl e
  | inr path =>
      match popen w (path :: args) stdin with
      | inl e => inl e
      | inr (stdout, stderr, returncode) =>
          let stdout := strip_banner stdout in
          process_result stdout stderr returncode
      end
  end.

(** [_BuiltinYosys.available] *)
Definition builtin_available : bool :=
  match importlib_metadata w with
  | None => false
  | Some lookup =>
      match lookup YOSYS_PACKAGE with
      | Some _ => true
      | None => false
      end
  end.

(** [_SystemYosys.available] *)
Definition system_available : bool := has_tool w YOSYS_BINARY.

(** [_BuiltinYosys.version]: [re.match] on [None] raises [TypeError]. *)
Definition builtin_version : exn + version_t :=
  match metadata_version YOSYS_PACKAGE with
  | inl e => inl e
  | inr None =>
      inl (TypeError "expected string or bytes-like object, got 'NoneType'")
  | inr (Some version) => version_of_match (builtin_version_re version)
  end.

(** [_SystemYosys.version] *)
Definition system_version : exn + version_t :=
  match system_run ["-V"] EmptyString with
  | inl e => inl e
  | inr version => version_of_match (system_version_re version)
  end.

(** Dispatch on the class, without the call log. *)
Definition available_of (p : YosysBinary) : bool :=
  match p with
  | _BuiltinYosys => builtin_available
  | _SystemYosys => system_available
  end.

Definition version_of (p : YosysBinary) : exn + version_t :=
  match p with
  | _BuiltinYosys => builtin_version
  | _SystemYosys => system_version
  end.

Definition run (p : YosysBinary) (args : list string) (stdin : string)
  : exn + string :=
  match p with
  | _BuiltinYosys => builtin_run args stdin
  | _SystemYosys => system_run args stdin
  end.

(** The classmethods as [find_yosys] calls them: each call is logged. *)
Definition available (p : YosysBinary) : M bool :=
  log (CallAvailable p) ;;; ret (available_of p).

Definition version (p : YosysBinary) : M version_t :=
  log (CallVersion p) ;;; lift (version_of p).

Definition unrecognized_clause (clause : string) : exn :=
  YosysError ("The NMIGEN_USE_YOSYS environment variable contains "
              ++ "an unrecognized clause " ++ PyStr.repr clause).

(** The body of the first loop for one clause. *)
Definition proxy_of_clause (clause : string) : exn + YosysBinary :=
  if String.eqb clause "builtin" then inr _BuiltinYosys
  else if String.eqb clause "system" then inr _SystemYosys
  else inl (unrecognized_clause clause).

(** The first loop: [proxies] grows by one proxy per clause. *)
Fixpoint collect_proxies (clauses : list string) (proxies : list YosysBinary)
  : exn + list YosysBinary :=
  match clauses with
  | [] => inr proxies
  | clause :: clauses' =>
      match proxy_of_clause clause with
      | inl e => inl e
      | inr p => collect_proxies clauses' (proxies ++ [p])%list
      end
  end.

(** The second loop: [Some proxy] when it returns from inside the loop,
    [None] when the loop runs to its end. *)
Fixpoint search (requirement : version_t -> bool) (proxies : list YosysBinary)
  : M (option YosysBinary) :=
  match proxies with
  | [] => ret None
  | proxy :: proxies' =>
      a <- available proxy ;;
      if a then
        v <- version proxy ;;
        if requirement v then ret (Some proxy)
        else search requirement proxies'
      else search requirement proxies'
  end.

Definition searched_message (clauses : list string) : string :=
  "Could not find an acceptable Yosys binary. Searched: "
  ++ PyStr.join ", " clauses.

Definition fallback_message : string :=
  "Could not find an acceptable Yosys binary. The `nmigen_yosys` PyPI "
  ++ "package, if available for this platform, can be used as fallback".

(** [os.environ.get("NMIGEN_USE_YOSYS", "system,builtin").split(",")] *)
Definition clauses_of_environ : list string :=
  PyStr.split ","
    (match environ w "NMIGEN_USE_YOSYS" with
     | Some v => v
     | None => "system,builtin"
     end).

(** [find_yosys(requirement)] *)
Definition find_yosys (requirement : version_t -> bool) : M YosysBinary :=
  let clauses := clauses_of_environ in
  proxies <- lift (collect_proxies clauses []) ;;
  found <- search requirement proxies ;;
  match found with
  | Some proxy => ret proxy
  | None =>
      match environ w "NMIGEN_USE_YOSYS" with
      | Some _ => raise (YosysError (searched_message clauses))
      | None => raise (YosysError fallback_message)
      end
  end.

End Yosys.

(** ** The Gowin GW1N platform: [GowinGW1NPlatform] *)

Module GowinGW1NPlatform.

(** A double quote, for the templates that hold one. *)
Definition Q : string := String PyStr.dquote EmptyString.

Definition _gowin_required_tools : list string :=
  ["GowinSynthesis"; "gw_sh"; "yosys"].

Definition gowin_own_file_templates : list (string * string) :=
  [("{{name}}.il",
"
            # {{autogenerated}}
            {{emit_rtlil()}}
        ");
   ("{{name}}.debug.v",
"
            /* {{autogenerated}} */
            {{emit_debug_verilog()}}
        ");
   ("{{name}}.ys",
"
            # {{autogenerated}}
            {% for file in platform.iter_files(" ++ Q ++ ".v" ++ Q ++ ") -%}
                read_verilog {{get_override(" ++ Q ++ "read_verilog_opts" ++ Q ++ ")|options}} {{file}}
            {% endfor %}
            {% for file in platform.iter_files(" ++ Q ++ ".sv" ++ Q ++ ") -%}
                read_verilog -sv {{get_override(" ++ Q ++ "read_verilog_opts" ++ Q ++ ")|options}} {{file}}
            {% endfor %}
            {% for file in platform.iter_files(" ++ Q ++ ".il" ++ Q ++ ") -%}
                read_ilang {{file}}
            {% endfor %}
            read_ilang {{name}}.il
            {{get_override(" ++ Q ++ "script_after_read" ++ Q ++ ")|default(" ++ Q ++ "# (script_after_read placeholder)" ++ Q ++ ")}}
            synth_gowin {{get_override(" ++ Q ++ "synth_opts" ++ Q ++ ")|options}} -top {{name}} -vout {{name}}_raw.vg

            # Workaround for PnR tool bug: IOBUF and TBUF require ports to be passed directly, not via wires.
            opt_clean -purge
            write_verilog -decimal -attr2comment -defparam -renameprefix gen {{name}}.vg

            {{get_override(" ++ Q ++ "script_after_synth" ++ Q ++ ")|default(" ++ Q ++ "# (script_after_synth placeholder)" ++ Q ++ ")}}
        ");
   ("{{name}}.cst",
"
            # {{autogenerated}}
            {% for port_name, pin_name, attrs in platform.iter_port_constraints_bits() -%}
                IO_LOC " ++ Q ++ "{{port_name}}" ++ Q ++ " {{pin_name}};
            {% endfor %}
            {% for port_name, pin_name, attrs in platform.iter_port_constraints_bits() -%}
                IO_PORT " ++ Q ++ "{{port_name}}" ++ Q ++ " IO_TYPE=LVCMOS33;
            {% endfor %}
        ");
   ("{{name}}.sdc",
"
            {% for net_signal, port_signal, frequency in platform.iter_clock_constraints() -%}
                create_clock -name {{net_signal|hierarchy(" ++ Q ++ "." ++ Q ++ ")}} -period {{1000000000/frequency}} -waveform {0 {{500000000/frequency}}} [get_ports { {{port_signal.name}} }]
            {% endfor%}

        ");
   ("run.tcl",
"
            add_file -type cst {{name}}.cst
            add_file -type sdc {{name}}.sdc
            add_file -type netlist {{name}}.vg
            set_device -name {{platform.device}} {{platform.family}}-{{platform.voltage}}{{platform._device_suffix}}{{platform.package}}{{platform.speed}}
            set_option -gen_posp 1
            set_option -show_all_warn 1

            # TODO: The following gpios may be a bit dangerous to enable, depending on the board used.

            #set_option -use_jtag_as_gpio 1
            set_option -use_sspi_as_gpio 1
            set_option -use_mspi_as_gpio 1
            #set_option -use_ready_as_gpio 1
            #set_option -use_done_as_gpio 1
            #set_option -use_reconfign_as_gpio 1
            #set_option -use_mode_as_gpio 1

            run pnr
        ")].

Definition yosys_command : string :=
"
        {{invoke_tool(" ++ Q ++ "yosys" ++ Q ++ ")}}
            {{quiet(" ++ Q ++ "-q" ++ Q ++ ")}}
            {{get_override(" ++ Q ++ "yosys_opts" ++ Q ++ ")|options}}
            -l {{name}}.rpt
            {{name}}.ys
        ".

Definition gw_sh_command : string :=
"
        {{invoke_tool(" ++ Q ++ "gw_sh" ++ Q ++ ")}}
            run.tcl
        ".

Definition relocate_command : string :=
"
        {{invoke_tool(" ++ Q ++ "bash" ++ Q ++ ")}}
            -c " ++ Q ++ "
                cp -f impl/pnr/{{name}}.fs ./
            " ++ Q ++ "
        ".

(** The command templates, in the order of the list. *)
Definition _gowin_command_templates : list string :=
  [yosys_command; gw_sh_command; relocate_command].

(** A [dict] as the list of its items in insertion order; [dict_set] is
    [d[k] = v]: an existing key keeps its place and takes the new value. *)
Fixpoint dict_set (k v : string) (d : list (string * string))
  : list (string * string) :=
  match d with
  | [] => [(k, v)]
  | (k', v') :: d' =>
      if String.eqb k k' then (k, v) :: d' else (k', v') :: dict_set k v d'
  end.

Section Templates.

(** [TemplatedPlatform.build_script_templates], of [nmigen.build]. *)
Variable build_script_templates : list (string * string).

(** [{**TemplatedPlatform.build_script_templates, ...}] *)
Definition _gowin_file_templates : list (string * string) :=
  fold_left (fun d kv => dict_set (fst kv) (snd kv) d)
            gowin_own_file_templates build_script_templates.

(** An instance: the one attribute the class sets itself. *)
Record t : Type := { toolchain : string }.

(** [__init__(self, *, toolchain="Gowin")], after [super().__init__()]:
    [("Gowin")] is the string, so [in] looks for a run of characters. *)
Definition __init__ (toolchain : string) : exn + t :=
  if PyStr.contains "Gowin" toolchain
  then inr {| toolchain := toolchain |}
  else inl AssertionError.

Definition _toolchain_env_var (self : t) : exn + string :=
  if String.eqb (toolchain self) "Gowin"
  then inr ("NMIGEN_ENV_" ++ toolchain self)
  else inl AssertionError.

Definition required_tools (self : t) : exn + list string :=
  if String.eqb (toolchain self) "Gowin"
  then inr _gowin_required_tools
  else inl AssertionError.

Definition file_templates (self : t) : exn + list (string * string) :=
  if String.eqb (toolchain self) "Gowin"
  then inr _gowin_file_templates
  else inl AssertionError.

Definition command_templates (self : t) : exn + list string :=
  if String.eqb (toolchain self) "Gowin"
  then inr _gowin_command_templates
  else inl AssertionError.

End Templates.

(** The tool a command template invokes: the name inside
    [{{invoke_tool("...")}}], when the template holds that call. *)
Fixpoint after_first (p s : string) : option string :=
  match PyStr.drop_prefix p s with
  | Some r => Some r
  | None =>
      match s with
      | EmptyString => None
      | String _ s' => after_first p s'
      end
  end.

Fixpoint until_char (c : ascii) (s : string) : string :=
  match s with
  | EmptyString => EmptyString
  | String d s' => if Ascii.eqb c d then EmptyString
                   else String d (until_char c s')
  end.

Definition invoked_tool (template : string) : option string :=
  match after_first ("{{invoke_tool(" ++ Q) template with
  | Some r => Some (until_char PyStr.dquote r)
  | None => None
  end.

(** What a list subscript raises when the index is out of range. *)
Inductive index_error : Type := IndexError (msg : string).

(** The property [family], as a function of [self.device]. *)
Definition family (device : string) : exn + string :=
  if PyStr.starts_with "GW1N" device then inr "GW1N"
  else inl AssertionError.

(** The property [_device_suffix]: [self.device.split("-")[1]]. *)
Definition _device_suffix (device : string) : index_error + string :=
  match nth_error (PyStr.split "-" device) 1 with
  | Some suffix => inr suffix
  | None => inl (IndexError "list index out of range")
  end.

(** [d.get(k)]: the value of the one item with key [k], if there is one. *)
Fixpoint dict_get (k : string) (d : list (string * string))
  : option string :=
  match d with
  | [] => None
  | (k', v) :: d' => if String.eqb k k' then Some v else dict_get k d'
  end.

End GowinGW1NPlatform.

(** ** Running the command steps *)

(** [s.split()]: the words of [s], with white space between them. *)
Fixpoint fields (s : string) : list string :=
  match s with
  | EmptyString => [EmptyString]
  | String c s' =>
      if PyStr.py_isspace c
      then EmptyString :: fields s'
      else match fields s' with
           | x :: xs => String c x :: xs
           | [] => [String c EmptyString]
           end
  end.

Definition words (s : string) : list string :=
  filter (fun x => negb (String.eqb x EmptyString)) (fields s).

(** How a run of the steps ends: all done, or the step that failed, its
    place in the sequence (counted from 1) and its error. *)
Inductive ExecutionResult (err : Type) : Type :=
| Success
| Failure (position : nat) (step : string) (e : err).

Arguments Success {err}.
Arguments Failure {err} position step e.

Section Executor.

Variables state err : Type.

(** What running one step does to the build directory, or its error. *)
Variable run_step : string -> state -> err + state.

(** Modelled from the spec: the executor of the build steps (section 4.4),
    which runs the steps strictly in order and stops at the first one that
    fails, reporting that step, its position and its error unchanged.  The
    code that runs [command_templates] belongs to [TemplatedPlatform] of
    [nmigen.build], which is not among the sources.  The result comes with
    the steps that were started, in order, and the state reached. *)
Fixpoint execute_from (position : nat) (steps : list string) (st : state)
  : ExecutionResult err * list string * state :=
  match steps with
  | [] => (Success, [], st)
  | step :: steps' =>
      match run_step step st with
      | inl e => (Failure position step e, [step], st)
      | inr st' =>
          let '(result, started, final) :=
            execute_from (S position) steps' st' in
          (result, step :: started, final)
      end
  end.

Definition execute (steps : list string) (st : state)
  : ExecutionResult err * list string * state :=
  execute_from 1 steps st.

End Executor.

Arguments execute {state err} run_step steps st.

(** A build directory as the list of the steps run in it; [gw_sh] fails. *)
Definition pnr_fails (step : string) (st : list string)
  : string + list string :=
  if String.eqb step GowinGW1NPlatform.gw_sh_command
  then inl "place and route failed"
  else inr (st ++ [step])%list.

(** ** Vocabulary of the statements *)

(** A candidate as one round of the second loop sees it. *)
Definition accepted (w : World) (requirement : version_t -> bool)
  (p : YosysBinary) : Prop :=
  available_of w p = true /\
  exists v, version_of w p = inr v /\ requirement v = true.

Definition rejected (w : World) (requirement : version_t -> bool)
  (p : YosysBinary) : Prop :=
  available_of w p = false \/
  exists v, version_of w p = inr v /\ requirement v = false.


(** The calls one round makes on a candidate the loop moves past or
    returns: [available()], and [version()] when that was true. *)
Definition probes_of (w : World) (p : YosysBinary) : list probe :=
  if available_of w p then [CallAvailable p; CallVersion p]
  else [CallAvailable p].

Definition probes (w : World) (ps : list YosysBinary) : list probe :=
  flat_map (probes_of w) ps.

(** The proxies of the configured order, when every clause is known. *)
Definition provider_order (w : World) : exn + list YosysBinary :=
  collect_proxies (clauses_of_environ w) [].

(** A decimal number as [\d+] reads it. *)
Definition number (d : string) : Prop :=
  d <> EmptyString /\ PyStr.all_digits d = true.

Definition leading_digit (s : string) : bool :=
  match s with
  | String c _ => PyStr.is_digit c
  | EmptyString => false
  end.

(** The text goes on with [mark] and a digit: a distance component. *)
Definition distance_ahead (mark s : string) : bool :=
  match PyStr.drop_prefix mark s with
  | Some r => leading_digit r
  | None => false
  end.

(** The shape both version patterns ask for, after the literal [lead]:
    digits, a dot, digits, and anything. *)
Definition matches_pattern (lead s : string) : Prop :=
  exists d1 d2 rest,
    number d1 /\ number d2 /\ s = lead ++ d1 ++ "." ++ d2 ++ rest.

(** The installed package reports [s] as its version. *)
Definition builtin_reports (w : World) (s : string) : Prop :=
  exists lookup,
    importlib_metadata w = Some lookup /\
    lookup YOSYS_PACKAGE = Some (Some s).

(** [yosys -V] is found, exits with code 0 and prints [s]. *)
Definition system_prints (w : World) (s : string) : Prop :=
  exists path err,
    require_tool w YOSYS_BINARY = inr path /\
    popen w [path; "-V"] EmptyString = inr (s, err, 0).

(** A line the banner pattern removes: empty, or ["-- "] and at least one
    more character; the line feed that ends it is not part of [l]. *)
Definition banner (l : string) : Prop :=
  PyStr.mem_char PyStr.nl l = false /\
  (l = EmptyString \/ exists c r, l = "-- " ++ String c r).

(** The text of some banner lines, each ended by a line feed. *)
Fixpoint banner_text (ls : list string) : string :=
  match ls with
  | [] => EmptyString
  | l :: ls' => l ++ String PyStr.nl (banner_text ls')
  end.

(** The text starts with a banner line and its line feed. *)
Definition starts_with_banner (s : string) : Prop :=
  exists l rest, banner l /\ s = l ++ String PyStr.nl rest.

(** [t] occurs in [s] as a contiguous run of characters. *)
Definition is_run (t s : string) : Prop :=
  exists pre post, s = pre ++ t ++ post.

(** The two clauses the first loop knows. *)
Definition recognized (clause : string) : Prop :=
  clause = "builtin" \/ clause = "system".

Definition clause_name (p : YosysBinary) : string :=
  match p with
  | _BuiltinYosys => "builtin"
  | _SystemYosys => "system"
  end.







(** [major >= n], as a requirement. *)
Definition major_at_least (n : Z) : version_t -> bool :=
  fun v => n <=? fst (fst v).

(** ** Concrete worlds *)

(** A machine described by: the value of [NMIGEN_USE_YOSYS]; the version of
    the installed [nmigen_yosys] package; whether [yosys] is on the path;
    what every process prints, and its return code. *)
Definition machine (use_yosys pkg : option string) (on_path : bool)
  (stdout : string) (returncode : Z) : World :=
  {| environ := fun k => if String.eqb k "NMIGEN_USE_YOSYS"
                         then use_yosys else None;
     sys_executable := "/usr/bin/python3";
     importlib_metadata :=
       Some (fun name => if String.eqb name "nmigen_yosys"
                         then option_map Some pkg else None);
     has_tool := fun name => on_path && String.eqb name "yosys";
     require_tool := fun name =>
       if on_path && String.eqb name "yosys" then inr ("/usr/bin/" ++ name)
       else inl (Foreign "ToolNotFound");
     popen := fun _ _ => inr (stdout, EmptyString, returncode) |}.

(** System Yosys 1.9 and packaged Yosys 2.3.post5, default order. *)
Definition scenario_world : World :=
  machine None (Some "2.3.post5") true "Yosys 1.9" 0.

(** The same, but [yosys -V] prints something else than a version. *)
Definition broken_system_world : World :=
  machine None (Some "2.3.post5") true "garbage" 0.

(** The package reports a version the pattern does not match. *)
Definition broken_builtin_world : World :=
  machine None (Some "garbage") false EmptyString 0.

(** Packaged first: its version does not parse; system Yosys is fine. *)
Definition broken_builtin_first_world : World :=
  machine (Some "builtin,system") (Some "garbage") true "Yosys 0.9+3000" 0.

(** The package is installed, and its metadata holds no version. *)
Definition no_version_world : World :=
  {| environ := fun _ => None;
     sys_executable := "/usr/bin/python3";
     importlib_metadata :=
       Some (fun name => if String.eqb name "nmigen_yosys"
                         then Some None else None);
     has_tool := fun _ => false;
     require_tool := fun _ => inl (Foreign "ToolNotFound");
     popen := fun _ _ => inr (EmptyString, EmptyString, 0) |}.


(** [c * n]: the character [c], [n] times. *)
Fixpoint replicate (n : nat) (c : ascii) : string :=
  match n with
  | O => EmptyString
  | S n' => String c (replicate n' c)
  end.

(** The package reports a major number of 4301 digits, then [.0]. *)
Definition long_major_world : World :=
  machine None (Some (replicate 4301 "1" ++ ".0")) false EmptyString 0.

(** Nothing installed; [NMIGEN_USE_YOSYS] as given. *)
Definition bare_world (use_yosys : option string) : World :=
  machine use_yosys None false EmptyString 1.

(** ** The second loop of [find_yosys], round by round *)

Section SearchFacts.

Variable w : World.
Variable requirement : version_t -> bool.

Lemma search_unavailable (p : YosysBinary) ps tr :
  available_of w p = false ->
  search w requirement (p :: ps) tr
  = search w requirement ps (tr ++ [CallAvailable p])%list.
Proof.
  intros Ha. cbn [search]. unfold available, log, ret, bind.
  now rewrite Ha.
Qed.

Lemma search_available (p : YosysBinary) ps tr :
  available_of w p = true ->
  search w requirement (p :: ps) tr
  = match version_of w p with
    | inl e => (inl e, (tr ++ [CallAvailable p; CallVersion p])%list)
    | inr v =>
        if requirement v
        then (inr (Some p), (tr ++ [CallAvailable p; CallVersion p])%list)
        else search w requirement ps
               (tr ++ [CallAvailable p; CallVersion p])%list
    end.
Proof.
  intros Ha. cbn [search]. unfold available, version, log, ret, lift, bind.
  rewrite Ha, <- app_assoc. cbn [app].
  destruct (version_of w p) as [e | v]; [reflexivity |].
  now destruct (requirement v).
Qed.

Lemma search_rejected (p : YosysBinary) ps tr :
  rejected w requirement p ->
  search w requirement (p :: ps) tr
  = search w requirement ps (tr ++ probes_of w p)%list.
Proof.
  unfold probes_of. intros [Ha | [v [Hv Hr]]].
  - rewrite Ha. now apply search_unavailable.
  - destruct (available_of w p) eqn:Ha.
    + rewrite search_available by assumption. now rewrite Hv, Hr.
    + now apply search_unavailable.
Qed.

Lemma search_skips pre rest tr :
  Forall (rejected w requirement) pre ->
  search w requirement (pre ++ rest) tr
  = search w requirement rest (tr ++ probes w pre)%list.
Proof.
  intros H. revert tr.
  induction H as [| p pre Hp _ IH]; intros tr.
  - cbn. now rewrite app_nil_r.
  - cbn [app]. rewrite search_rejected by assumption.
    rewrite IH. unfold probes. cbn [flat_map]. now rewrite app_assoc.
Qed.

Lemma search_exhausted ps tr :
  Forall (rejected w requirement) ps ->
  search w requirement ps tr = (inr None, (tr ++ probes w ps)%list).
Proof.
  intros H. rewrite <- (app_nil_r ps) at 1.
  now rewrite search_skips.
Qed.


Lemma search_raises (p : YosysBinary) ps tr e :
  available_of w p = true -> version_of w p = inl e ->
  search w requirement (p :: ps) tr
  = (inl e, (tr ++ [CallAvailable p; CallVersion p])%list).
Proof.
  intros Ha Hv. rewrite search_available by assumption. now rewrite Hv.
Qed.

(** [find_yosys] once the first loop has built the list. *)
Lemma find_yosys_order ps tr :
  provider_order w = inr ps ->
  find_yosys w requirement tr
  = match search w requirement ps tr with
    | (inr (Some p), tr') => (inr p, tr')
    | (inr None, tr') =>
        (inl (YosysError
                match environ w "NMIGEN_USE_YOSYS" with
                | Some _ => searched_message (clauses_of_environ w)
                | None => fallback_message
                end), tr')
    | (inl e, tr') => (inl e, tr')
    end.
Proof.
  unfold provider_order, find_yosys, bind, lift. intros ->.
  destruct (search w requirement ps tr) as [[e | [p |]] tr']; try reflexivity.
  unfold raise. now destruct (environ w "NMIGEN_USE_YOSYS").
Qed.


End SearchFacts.

(** ** The first loop: clauses to proxies *)

Lemma proxy_of_clause_recognized (clause : string) :
  (exists p, proxy_of_clause clause = inr p) <-> recognized clause.
Proof.
  unfold proxy_of_clause, recognized. split.
  - intros [p H].
    destruct (String.eqb_spec clause "builtin") as [-> | _]; [now left |].
    destruct (String.eqb_spec clause "system") as [-> | _]; [now right |].
    discriminate.
  - intros [-> | ->]; eexists; reflexivity.
Qed.

Lemma proxy_of_clause_unrecognized (clause : string) :
  ~ recognized clause ->
  proxy_of_clause clause = inl (unrecognized_clause clause).
Proof.
  intros H. unfold proxy_of_clause.
  destruct (String.eqb_spec clause "builtin") as [-> | _];
    [exfalso; apply H; now left |].
  destruct (String.eqb_spec clause "system") as [-> | _];
    [exfalso; apply H; now right |].
  reflexivity.
Qed.

Lemma recognized_dec (clause : string) :
  {recognized clause} + {~ recognized clause}.
Proof.
  unfold recognized.
  destruct (string_dec clause "builtin"); [left; now left |].
  destruct (string_dec clause "system"); [left; now right |].
  right. now intros [H | H].
Qed.

(** With a known clause in front, the loop goes on with one more proxy. *)
Lemma collect_proxies_good good clauses acc :
  Forall recognized good ->
  exists ps,
    map clause_name ps = good /\
    collect_proxies (good ++ clauses) acc
    = collect_proxies clauses (acc ++ ps)%list.
Proof.
  intros H. revert acc.
  induction H as [| c good Hc _ IH]; intros acc.
  - exists []. cbn. now rewrite app_nil_r.
  - apply proxy_of_clause_recognized in Hc as Hp. destruct Hp as [p Hp].
    destruct (IH (acc ++ [p])%list) as [ps [Hn Hps]].
    exists (p :: ps). split.
    + cbn. f_equal; [| assumption].
      unfold proxy_of_clause in Hp.
      destruct (String.eqb_spec c "builtin") as [-> | _];
        [now inversion Hp |].
      destruct (String.eqb_spec c "system") as [-> | _];
        [now inversion Hp | discriminate].
    + cbn [app collect_proxies]. rewrite Hp, Hps.
      now rewrite <- app_assoc.
Qed.

(** The first unknown clause stops the loop, whatever follows it. *)
Lemma collect_proxies_stops good c rest acc :
  Forall recognized good -> ~ recognized c ->
  collect_proxies (good ++ c :: rest) acc = inl (unrecognized_clause c).
Proof.
  intros Hg Hc.
  destruct (collect_proxies_good good (c :: rest) acc Hg) as [ps [_ ->]].
  cbn. now rewrite proxy_of_clause_unrecognized.
Qed.

(** Every list of clauses is all known, or has a first unknown clause. *)
Lemma first_unrecognized (clauses : list string) :
  Forall recognized clauses \/
  exists good c rest,
    clauses = (good ++ c :: rest)%list /\
    Forall recognized good /\ ~ recognized c.
Proof.
  induction clauses as [| c clauses IH]; [now left |].
  destruct (recognized_dec c) as [Hc | Hc].
  - destruct IH as [IH | [good [c' [rest [-> [Hg Hc']]]]]].
    + left. now constructor.
    + right. exists (c :: good), c', rest. repeat split; auto.
  - right. exists [], c, clauses. repeat split; auto.
Qed.

(** The first unknown clause is the same in every such splitting. *)
Lemma first_unrecognized_unique good c rest good' c' rest' :
  (good ++ c :: rest = good' ++ c' :: rest')%list ->
  Forall recognized good -> ~ recognized c ->
  Forall recognized good' -> ~ recognized c' ->
  c = c'.
Proof.
  revert good'. induction good as [| g good IH]; intros good' E Hg Hc Hg' Hc'.
  - destruct good' as [| g' good']; cbn in E.
    + now inversion E.
    + inversion E; subst. inversion Hg'; subst. contradiction.
  - destruct good' as [| g' good']; cbn in E.
    + inversion E; subst. inversion Hg; subst. contradiction.
    + inversion E; subst. inversion Hg; inversion Hg'; subst.
      now apply (IH good').
Qed.

Lemma provider_order_names (w : World) ps :
  provider_order w = inr ps ->
  map clause_name ps = clauses_of_environ w.
Proof.
  unfold provider_order. intros H.
  destruct (first_unrecognized (clauses_of_environ w))
    as [Hall | [good [c [rest [E [Hg Hc]]]]]].
  - destruct (collect_proxies_good _ [] [] Hall) as [ps' [Hn Hps]].
    rewrite app_nil_r in Hps. rewrite Hps in H. cbn in H.
    inversion H; subst. assumption.
  - rewrite E, collect_proxies_stops in H by assumption. discriminate.
Qed.

Lemma find_yosys_bad_clause (w : World) requirement tr e :
  provider_order w = inl e ->
  find_yosys w requirement tr = (inl e, tr).
Proof.
  unfold provider_order, find_yosys, bind, lift. now intros ->.
Qed.

(** ** Resolution: which proxy [find_yosys] returns *)




(** C2, as the specification states it, fails: with the order [builtin,system], a
    package whose version does not parse and a system Yosys 0.9+3000 that
    alone would be returned, [find_yosys] does not go on to the system
    proxy; the [TypeError] of [version()] ends the search. *)
Lemma C2_counterexample :
  provider_order broken_builtin_first_world
  = inr [_BuiltinYosys; _SystemYosys] /\
  available_of broken_builtin_first_world _BuiltinYosys = true /\
  version_of broken_builtin_first_world _BuiltinYosys
  = inl (TypeError "'NoneType' object is not subscriptable") /\
  search broken_builtin_first_world (major_at_least 0) [_SystemYosys] []
  = (inr (Some _SystemYosys),
     [CallAvailable _SystemYosys; CallVersion _SystemYosys]) /\
  find_yosys broken_builtin_first_world (major_at_least 0) []
  = (inl (TypeError "'NoneType' object is not subscriptable"),
     [CallAvailable _BuiltinYosys; CallVersion _BuiltinYosys]).
Proof. repeat split; vm_compute; reflexivity. Qed.

(** C2 (amended): when the [version()] of an available candidate raises and
    every candidate before it was passed over, [find_yosys] raises that
    same error; the candidates after it are not asked anything. *)
Theorem C2_version_error_propagates (w : World)
  (requirement : version_t -> bool) (pre : list YosysBinary)
  (p : YosysBinary) (rest : list YosysBinary) (tr : list probe) (e : exn) :
  provider_order w = inr (pre ++ p :: rest)%list ->
  Forall (rejected w requirement) pre ->
  available_of w p = true ->
  version_of w p = inl e ->
  find_yosys w requirement tr
  = (inl e, (tr ++ probes w pre ++ [CallAvailable p; CallVersion p])%list).
Proof.
  intros Ho Hrej Ha Hv.
  rewrite (find_yosys_order w requirement _ tr Ho).
  rewrite search_skips by assumption.
  rewrite (search_raises w requirement p rest _ e Ha Hv).
  now rewrite <- app_assoc.
Qed.

Lemma C2_version_error_propagates_witness :
  find_yosys broken_system_world (major_at_least 2) []
  = (inl (TypeError "'NoneType' object is not subscriptable"),
     [CallAvailable _SystemYosys; CallVersion _SystemYosys]).
Proof.
  apply (C2_version_error_propagates broken_system_world (major_at_least 2)
           [] _SystemYosys [_BuiltinYosys] []);
    [reflexivity | constructor | reflexivity | reflexivity].
Defined.

(** C4, as the specification states it, fails for the empty string: [split] gives
    the one clause [''], which the first loop does not know. *)
Lemma C4_counterexample :
  clauses_of_environ (bare_world (Some EmptyString)) = [EmptyString] /\
  find_yosys (bare_world (Some EmptyString)) (major_at_least 0) []
  = (inl (YosysError
            "The NMIGEN_USE_YOSYS environment variable contains an unrecognized clause ''"),
     []).
Proof. split; vm_compute; reflexivity. Qed.

(** C4 (amended): with [NMIGEN_USE_YOSYS] unset the order is system, then
    builtin, and [find_yosys] is the search over these two; with the
    variable set to the empty string [find_yosys] raises the error of the
    unrecognized clause [''] before any proxy is asked anything. *)
Theorem C4_unset_default_empty_rejected (w : World)
  (requirement : version_t -> bool) (tr : list probe) :
  (environ w "NMIGEN_USE_YOSYS" = None ->
   provider_order w = inr [_SystemYosys; _BuiltinYosys] /\
   find_yosys w requirement tr
   = match search w requirement [_SystemYosys; _BuiltinYosys] tr with
     | (inr (Some p), tr') => (inr p, tr')
     | (inr None, tr') => (inl (YosysError fallback_message), tr')
     | (inl e, tr') => (inl e, tr')
     end) /\
  (environ w "NMIGEN_USE_YOSYS" = Some EmptyString ->
   find_yosys w requirement tr
   = (inl (unrecognized_clause EmptyString), tr)).
Proof.
  split; intros He.
  - assert (Ho : provider_order w = inr [_SystemYosys; _BuiltinYosys]).
    { unfold provider_order, clauses_of_environ. now rewrite He. }
    split; [assumption |].
    rewrite (find_yosys_order w requirement _ tr Ho). now rewrite He.
  - apply find_yosys_bad_clause.
    unfold provider_order, clauses_of_environ. now rewrite He.
Qed.

Lemma C4_unset_default_empty_rejected_witness :
  provider_order scenario_world = inr [_SystemYosys; _BuiltinYosys] /\
  find_yosys (bare_world (Some EmptyString)) (major_at_least 0) []
  = (inl (unrecognized_clause EmptyString), []).
Proof.
  split.
  - apply (C4_unset_default_empty_rejected scenario_world
             (major_at_least 0) []).
    reflexivity.
  - apply (C4_unset_default_empty_rejected (bare_world (Some EmptyString))
             (major_at_least 0) []).
    reflexivity.
Defined.

(** ** Resolution: the error when no candidate is returned *)

Lemma searched_is_not_fallback (clauses : list string) :
  searched_message clauses <> fallback_message.
Proof.
  unfold searched_message, fallback_message. cbn [append]. discriminate.
Qed.

(** C7, as the specification states it, fails in the default case: with the
    variable unset and nothing installed, both candidates are tried and the
    message names neither of them. *)
Lemma C7_counterexample :
  provider_order (bare_world None) = inr [_SystemYosys; _BuiltinYosys] /\
  find_yosys (bare_world None) (major_at_least 0) []
  = (inl (YosysError
            "Could not find an acceptable Yosys binary. The `nmigen_yosys` PyPI package, if available for this platform, can be used as fallback"),
     [CallAvailable _SystemYosys; CallAvailable _BuiltinYosys]) /\
  PyStr.contains fallback_message "system" = false /\
  PyStr.contains fallback_message "builtin" = false.
Proof. repeat split; vm_compute; reflexivity. Qed.

(** C7 (amended): when every proxy of the configured order is unavailable,
    or has a version that [version()] returns and the requirement refuses,
    [find_yosys] asks each of them in order and raises [YosysError].  With
    [NMIGEN_USE_YOSYS] set, the message ends with the clauses joined by
    [", "], which are the names of the proxies that were tried, in order;
    with the variable unset the proxies are system and builtin and the
    message, a different one, names none of them and points at the
    [nmigen_yosys] package. *)
Theorem C7_exhausted_order_error (w : World)
  (requirement : version_t -> bool) (ps : list YosysBinary)
  (tr : list probe) :
  provider_order w = inr ps ->
  Forall (rejected w requirement) ps ->
  (forall v, environ w "NMIGEN_USE_YOSYS" = Some v ->
     find_yosys w requirement tr
     = (inl (YosysError
               ("Could not find an acceptable Yosys binary. Searched: "
                ++ PyStr.join ", " (map clause_name ps))),
        (tr ++ probes w ps)%list)) /\
  (environ w "NMIGEN_USE_YOSYS" = None ->
     ps = [_SystemYosys; _BuiltinYosys] /\
     find_yosys w requirement tr
     = (inl (YosysError fallback_message), (tr ++ probes w ps)%list)) /\
  (forall clauses, searched_message clauses <> fallback_message).
Proof.
  intros Ho Hrej.
  pose proof (find_yosys_order w requirement ps tr Ho) as Hf.
  rewrite search_exhausted in Hf by assumption.
  split; [| split].
  - intros v He. rewrite Hf, He.
    now rewrite (provider_order_names w ps Ho).
  - intros He. split.
    + unfold provider_order, clauses_of_environ in Ho. rewrite He in Ho.
      cbn in Ho. now inversion Ho.
    + now rewrite Hf, He.
  - apply searched_is_not_fallback.
Qed.

Lemma C7_exhausted_order_error_witness :
  find_yosys (bare_world (Some "builtin,system")) (major_at_least 0) []
  = (inl (YosysError
            "Could not find an acceptable Yosys binary. Searched: builtin, system"),
     [CallAvailable _BuiltinYosys; CallAvailable _SystemYosys]).
Proof.
  refine (proj1 (C7_exhausted_order_error
                   (bare_world (Some "builtin,system")) (major_at_least 0)
                   [_BuiltinYosys; _SystemYosys] [] eq_refl _)
            "builtin,system" eq_refl).
  constructor; [now left |]. constructor; [now left | constructor].
Defined.

(** ** The clauses of [NMIGEN_USE_YOSYS] *)

Lemma split_nonempty (sep : ascii) (s : string) : PyStr.split sep s <> [].
Proof.
  destruct s as [| c s]; cbn; [discriminate |].
  destruct (Ascii.eqb c sep); [discriminate |].
  destruct (PyStr.split sep s); discriminate.
Qed.

Lemma in_tl {A} (x : A) (l : list A) : In x (tl l) -> In x l.
Proof. destruct l; cbn; auto. Qed.

(** A comma followed by a space leaves a clause that starts with the
    space; it is never the first clause. *)
Lemma split_comma_space (v : string) :
  PyStr.contains v ", " = true ->
  exists c, In c (tl (PyStr.split "," v)) /\ PyStr.starts_with " " c = true.
Proof.
  induction v as [| a v IH]; cbn [PyStr.contains]; intros H.
  - discriminate.
  - apply orb_true_iff in H. destruct H as [H | H].
    + unfold PyStr.starts_with in H. cbn [PyStr.drop_prefix] in H.
      destruct (Ascii.eqb_spec "," a) as [<- | _]; [| discriminate].
      destruct v as [| b v]; [discriminate |].
      destruct (Ascii.eqb_spec " " b) as [<- | _]; [| discriminate].
      cbn. destruct (PyStr.split "," v) as [| x xs].
      * exists " ". split; [now left | reflexivity].
      * exists (String " " x). split; [now left | reflexivity].
    + destruct (IH H) as [c [Hin Hc]]. exists c. split; [| assumption].
      cbn [PyStr.split]. destruct (Ascii.eqb a ",").
      * cbn. now apply in_tl.
      * destruct (PyStr.split "," v); [destruct Hin | exact Hin].
Qed.

Lemma space_first_unrecognized (c : string) :
  PyStr.starts_with " " c = true -> ~ recognized c.
Proof. intros H [-> | ->]; discriminate H. Qed.

(** C10, as the specification states it, fails when an unknown clause comes before
    the one with the space: the error names the first unknown clause. *)
Lemma C10_counterexample :
  PyStr.contains "x, builtin" ", " = true /\
  clauses_of_environ (bare_world (Some "x, builtin")) = ["x"; " builtin"] /\
  find_yosys (bare_world (Some "x, builtin")) (major_at_least 0) []
  = (inl (YosysError
            "The NMIGEN_USE_YOSYS environment variable contains an unrecognized clause 'x'"),
     []) /\
  unrecognized_clause "x" <> unrecognized_clause " builtin".
Proof.
  split; [reflexivity |]. split; [reflexivity |]. split; [reflexivity |].
  vm_compute. discriminate.
Qed.

(** C10 (amended): clauses are not trimmed.  For every value of
    [NMIGEN_USE_YOSYS] that holds a comma followed by a space, one clause
    starts with that space, and [find_yosys] raises the error of an
    unrecognized clause before any proxy is asked anything.  The clause the
    error names is the first one that is neither ["builtin"] nor
    ["system"]: it is the clause with the space whenever every clause
    before that one is known.  A clause is known exactly when it is one of
    the two literal names. *)
Theorem C10_clauses_not_trimmed (w : World)
  (requirement : version_t -> bool) (tr : list probe) (v : string) :
  environ w "NMIGEN_USE_YOSYS" = Some v ->
  PyStr.contains v ", " = true ->
  (exists spaced,
     In spaced (PyStr.split "," v) /\
     PyStr.starts_with " " spaced = true) /\
  (exists good c rest,
     PyStr.split "," v = (good ++ c :: rest)%list /\
     Forall recognized good /\ ~ recognized c /\
     find_yosys w requirement tr = (inl (unrecognized_clause c), tr) /\
     forall good' spaced rest',
       PyStr.split "," v = (good' ++ spaced :: rest')%list ->
       Forall recognized good' ->
       PyStr.starts_with " " spaced = true ->
       spaced = c) /\
  (forall clause,
     (exists p, proxy_of_clause clause = inr p) <-> recognized clause).
Proof.
  intros He Hc.
  destruct (split_comma_space v Hc) as [spaced [Hin Hs]].
  apply in_tl in Hin.
  split; [now exists spaced |].
  split; [| exact proxy_of_clause_recognized].
  destruct (first_unrecognized (PyStr.split "," v))
    as [Hall | [good [c [rest [E [Hg Hn]]]]]].
  - exfalso. rewrite Forall_forall in Hall.
    exact (space_first_unrecognized spaced Hs (Hall spaced Hin)).
  - exists good, c, rest. repeat split; try assumption.
    + apply find_yosys_bad_clause.
      unfold provider_order, clauses_of_environ. rewrite He, E.
      now apply collect_proxies_stops.
    + intros good' spaced' rest' E' Hg' Hs'. symmetry.
      apply (first_unrecognized_unique good c rest good' spaced' rest');
        try assumption.
      * now rewrite <- E, <- E'.
      * now apply space_first_unrecognized.
Qed.

Lemma C10_clauses_not_trimmed_witness :
  find_yosys (bare_world (Some "system, builtin")) (major_at_least 0) []
  = (inl (YosysError
            "The NMIGEN_USE_YOSYS environment variable contains an unrecognized clause ' builtin'"),
     []).
Proof.
  destruct (C10_clauses_not_trimmed (bare_world (Some "system, builtin"))
              (major_at_least 0) [] "system, builtin"
              eq_refl eq_refl)
    as [_ [[good [c [rest [E [Hg [Hn [Hf Hfirst]]]]]]] _]].
  rewrite Hf.
  now rewrite <- (Hfirst ["system"] " builtin" [] eq_refl
                    (Forall_cons _ (or_intror eq_refl) (Forall_nil _))
                    eq_refl).
Defined.

(** ** The version patterns *)

Lemma append_assoc (a b c : string) : (a ++ b) ++ c = a ++ b ++ c.
Proof. induction a as [| x a IH]; cbn; [reflexivity | now rewrite IH]. Qed.

Lemma append_nil_r (a : string) : a ++ EmptyString = a.
Proof. induction a as [| x a IH]; cbn; [reflexivity | now rewrite IH]. Qed.

(** [int] reads decimal notation: one more digit on the right is ten times
    the number plus the digit, and a string of digits is never negative. *)
Lemma int_acc_snoc (acc : Z) (d : string) (c : ascii) :
  PyStr.int_acc acc (d ++ String c EmptyString)
  = 10 * PyStr.int_acc acc d + PyStr.digit_val c.
Proof.
  revert acc. induction d as [| x d IH]; intros acc; cbn; [reflexivity |].
  apply IH.
Qed.

Lemma int_snoc (d : string) (c : ascii) :
  PyStr.int (d ++ String c EmptyString)
  = 10 * PyStr.int d + PyStr.digit_val c.
Proof. apply int_acc_snoc. Qed.

Lemma int_acc_nonneg (acc : Z) (d : string) :
  0 <= acc -> PyStr.all_digits d = true -> 0 <= PyStr.int_acc acc d.
Proof.
  revert acc. induction d as [| c d IH]; intros acc Ha Hd;
    cbn [PyStr.int_acc]; [assumption |].
  cbn [PyStr.all_digits] in Hd. apply andb_true_iff in Hd.
  destruct Hd as [Hc Hd].
  apply IH; [| assumption].
  unfold PyStr.is_digit in Hc. apply andb_true_iff in Hc.
  destruct Hc as [Hlo _]. apply Nat.leb_le in Hlo.
  unfold PyStr.digit_val. lia.
Qed.

Lemma int_nonneg (d : string) :
  PyStr.all_digits d = true -> 0 <= PyStr.int d.
Proof. apply int_acc_nonneg. lia. Qed.

Lemma drop_prefix_app (p s : string) : PyStr.drop_prefix p (p ++ s) = Some s.
Proof.
  induction p as [| a p IH]; cbn; [reflexivity |].
  now rewrite Ascii.eqb_refl.
Qed.

Lemma drop_prefix_inv (p s r : string) :
  PyStr.drop_prefix p s = Some r -> s = p ++ r.
Proof.
  revert s. induction p as [| a p IH]; cbn; intros s H.
  - now inversion H.
  - destruct s as [| b s]; [discriminate |].
    destruct (Ascii.eqb_spec a b) as [<- | _]; [| discriminate].
    now rewrite (IH s H).
Qed.

(** [span_digits] splits the text, takes digits only, and stops at a
    character that is not a digit. *)
Lemma span_digits_inv (s : string) :
  s = fst (PyStr.span_digits s) ++ snd (PyStr.span_digits s) /\
  PyStr.all_digits (fst (PyStr.span_digits s)) = true /\
  leading_digit (snd (PyStr.span_digits s)) = false.
Proof.
  induction s as [| c s [IH1 [IH2 IH3]]]; cbn; [auto |].
  destruct (PyStr.is_digit c) eqn:Hc.
  - destruct (PyStr.span_digits s) as [d r]. cbn in *.
    rewrite Hc, IH2. repeat split; [now f_equal | assumption].
  - cbn. now rewrite Hc.
Qed.

Lemma span_digits_more (d r : string) :
  PyStr.all_digits d = true ->
  PyStr.span_digits (d ++ r)
  = (d ++ fst (PyStr.span_digits r), snd (PyStr.span_digits r)).
Proof.
  induction d as [| c d IH]; cbn; intros H.
  - now destruct (PyStr.span_digits r).
  - apply andb_true_iff in H. destruct H as [Hc Hd].
    now rewrite Hc, (IH Hd).
Qed.

Lemma span_digits_stop (r : string) :
  leading_digit r = false -> PyStr.span_digits r = (EmptyString, r).
Proof. destruct r as [| c r]; cbn; [reflexivity | now intros ->]. Qed.

Lemma span_digits_app (d r : string) :
  PyStr.all_digits d = true -> leading_digit r = false ->
  PyStr.span_digits (d ++ r) = (d, r).
Proof.
  intros Hd Hr. rewrite span_digits_more by assumption.
  rewrite span_digits_stop by assumption. cbn. now rewrite append_nil_r.
Qed.

Lemma number_app_nonempty (d x : string) :
  number d -> exists c t, d ++ x = String c t.
Proof. intros [Hn _]. destruct d as [| c d]; [congruence | cbn; eauto]. Qed.

(** A text of the shape the pattern asks for is matched. *)
Lemma match_version_matches (lead mark s : string) :
  matches_pattern lead s -> match_version lead mark s <> None.
Proof.
  intros [d1 [d2 [rest [H1 [H2 ->]]]]]. unfold match_version.
  rewrite drop_prefix_app.
  rewrite (span_digits_app d1 ("." ++ d2 ++ rest)) by (apply H1 || reflexivity).
  destruct H1 as [Hn1 _]. destruct d1 as [| c1 d1]; [congruence |].
  cbn [append PyStr.drop_prefix]. rewrite Ascii.eqb_refl.
  rewrite span_digits_more by apply H2.
  destruct (number_app_nonempty d2 (fst (PyStr.span_digits rest)) H2)
    as [c [t ->]].
  cbn [snd].
  destruct (PyStr.drop_prefix mark (snd (PyStr.span_digits rest)))
    as [r4 |]; [| discriminate].
  destruct (fst (PyStr.span_digits r4)); discriminate.
Qed.

(** What is matched has that shape. *)
Lemma match_version_shape (lead mark s : string) (m : match_t) :
  match_version lead mark s = Some m -> matches_pattern lead s.
Proof.
  unfold match_version. intros H.
  destruct (PyStr.drop_prefix lead s) as [s0 |] eqn:E0; [| discriminate].
  apply drop_prefix_inv in E0.
  destruct (span_digits_inv s0) as [S1 [D1 _]].
  destruct (PyStr.span_digits s0) as [g1 r1]. cbn [fst snd] in *.
  destruct g1 as [| c1 g1]; [discriminate |].
  destruct (PyStr.drop_prefix "." r1) as [r2 |] eqn:E1; [| discriminate].
  apply drop_prefix_inv in E1.
  destruct (span_digits_inv r2) as [S2 [D2 _]].
  destruct (PyStr.span_digits r2) as [g2 r3]. cbn [fst snd] in *.
  destruct g2 as [| c2 g2]; [discriminate |].
  exists (String c1 g1), (String c2 g2), r3.
  repeat split; try discriminate; try assumption.
  rewrite E0, S1, E1, S2. reflexivity.
Qed.

Lemma match_version_none (lead mark s : string) :
  ~ matches_pattern lead s -> match_version lead mark s = None.
Proof.
  intros H. destruct (match_version lead mark s) as [m |] eqn:E;
    [| reflexivity].
  exfalso. apply H. now apply (match_version_shape lead mark s m).
Qed.

(** With the distance component right after the minor number. *)
Lemma match_version_distance (lead mark d1 d2 d3 rest : string) :
  (forall x, leading_digit (mark ++ x) = false) ->
  number d1 -> number d2 -> number d3 -> leading_digit rest = false ->
  match_version lead mark (lead ++ d1 ++ "." ++ d2 ++ mark ++ d3 ++ rest)
  = Some (d1, d2, Some d3).
Proof.
  intros Hm H1 H2 H3 Hr. unfold match_version.
  rewrite drop_prefix_app.
  rewrite (span_digits_app d1) by (apply H1 || reflexivity).
  destruct H1 as [Hn1 _]. destruct d1 as [| c1 d1]; [congruence |].
  cbn [append PyStr.drop_prefix]. rewrite Ascii.eqb_refl.
  rewrite (span_digits_app d2) by (apply H2 || apply Hm).
  destruct H2 as [Hn2 _]. destruct d2 as [| c2 d2]; [congruence |].
  rewrite drop_prefix_app.
  rewrite (span_digits_app d3) by (apply H3 || assumption).
  destruct H3 as [Hn3 _]. destruct d3 as [| c3 d3]; [congruence |].
  reflexivity.
Qed.

(** Without it. *)
Lemma match_version_plain (lead mark d1 d2 rest : string) :
  number d1 -> number d2 -> leading_digit rest = false ->
  distance_ahead mark rest = false ->
  match_version lead mark (lead ++ d1 ++ "." ++ d2 ++ rest)
  = Some (d1, d2, None).
Proof.
  intros H1 H2 Hr Hd. unfold match_version.
  rewrite drop_prefix_app.
  rewrite (span_digits_app d1) by (apply H1 || reflexivity).
  destruct H1 as [Hn1 _]. destruct d1 as [| c1 d1]; [congruence |].
  cbn [append PyStr.drop_prefix]. rewrite Ascii.eqb_refl.
  rewrite (span_digits_app d2) by (apply H2 || assumption).
  destruct H2 as [Hn2 _]. destruct d2 as [| c2 d2]; [congruence |].
  unfold distance_ahead in Hd.
  destruct (PyStr.drop_prefix mark rest) as [r4 |]; [| reflexivity].
  rewrite span_digits_stop by assumption. reflexivity.
Qed.

Lemma builtin_version_reported (w : World) (s : string) :
  builtin_reports w s ->
  builtin_version w = version_of_match (builtin_version_re s).
Proof.
  intros [lookup [Hm Hl]]. unfold builtin_version, metadata_version.
  now rewrite Hm, Hl.
Qed.

Lemma system_version_printed (w : World) (s : string) :
  system_prints w s ->
  system_version w = version_of_match (system_version_re (strip_banner s)).
Proof.
  intros [path [err [Hp Hr]]]. unfold system_version, system_run.
  now rewrite Hp, Hr.
Qed.

Lemma strip_banner_yosys (x : string) :
  strip_banner ("Yosys " ++ x) = "Yosys " ++ x.
Proof. reflexivity. Qed.

(** C3, as the specification states it, fails: the module has no error of its own
    for a version that does not parse.  A package that reports ["garbage"]
    makes [version()] raise the [TypeError] of subscripting [None], which
    is not the module's [YosysError]. *)
Lemma C3_counterexample :
  builtin_reports broken_builtin_world "garbage" /\
  builtin_version_re "garbage" = None /\
  builtin_version broken_builtin_world
  = inl (TypeError "'NoneType' object is not subscriptable") /\
  (forall msg,
     TypeError "'NoneType' object is not subscriptable" <> YosysError msg).
Proof.
  split; [| split; [| split]].
  - eexists. split; reflexivity.
  - reflexivity.
  - reflexivity.
  - discriminate.
Qed.

(** C3 (amended): for every version text that does not have the shape of
    the proxy's pattern (digits, a dot, digits; after ["Yosys "] for the
    system proxy, whose text is the cleaned output of [yosys -V]),
    [version()] does not return: it raises the [TypeError] of subscripting
    the missing match. *)
Theorem C3_unparsable_version_raises (w : World) (s : string) :
  (builtin_reports w s -> ~ matches_pattern EmptyString s ->
   builtin_version w
   = inl (TypeError "'NoneType' object is not subscriptable")) /\
  (system_prints w s -> ~ matches_pattern "Yosys " (strip_banner s) ->
   system_version w
   = inl (TypeError "'NoneType' object is not subscriptable")).
Proof.
  split; intros Hw Hs.
  - rewrite (builtin_version_reported w s Hw).
    unfold builtin_version_re. now rewrite match_version_none.
  - rewrite (system_version_printed w s Hw).
    unfold system_version_re. now rewrite match_version_none.
Qed.

Lemma not_matches_of_no_match (lead mark s : string) :
  match_version lead mark s = None -> ~ matches_pattern lead s.
Proof. intros E H. now apply (match_version_matches lead mark s H). Qed.

Lemma C3_unparsable_version_raises_witness :
  builtin_version broken_builtin_world
  = inl (TypeError "'NoneType' object is not subscriptable") /\
  system_version broken_system_world
  = inl (TypeError "'NoneType' object is not subscriptable").
Proof.
  split.
  - apply (C3_unparsable_version_raises broken_builtin_world "garbage").
    + eexists. split; reflexivity.
    + now apply (not_matches_of_no_match _ ".post").
  - apply (C3_unparsable_version_raises broken_system_world "garbage").
    + do 2 eexists. split; reflexivity.
    + now apply (not_matches_of_no_match _ "+").
Defined.

Lemma int_of_str_within (d : string) :
  (String.length d <= int_max_str_digits)%nat ->
  int_of_str d = inr (PyStr.int d).
Proof.
  intros H. unfold int_of_str. apply Nat.ltb_ge in H. now rewrite H.
Qed.

(** C5, as the specification states it, fails for a number of more than
    4300 digits: the text matches the pattern, and [int] raises
    [ValueError] on the 4301 digits of the major number. *)
Lemma C5_counterexample :
  PyStr.all_digits (replicate 4301 "1") = true /\
  builtin_reports long_major_world (replicate 4301 "1" ++ ".0") /\
  builtin_version_re (replicate 4301 "1" ++ ".0")
  = Some (replicate 4301 "1", "0", None) /\
  builtin_version long_major_world
  = inl (ValueError
           "Exceeds the limit (4300 digits) for integer string conversion: value has 4301 digits; use sys.set_int_max_str_digits() to increase the limit").
Proof.
  split; [vm_compute; reflexivity |].
  split; [eexists; split; reflexivity |].
  split; vm_compute; reflexivity.
Qed.

(** C5 (amended): a version text made of major, a dot, minor and the
    distance component ([.post<n>] for the packaged proxy, [+<n>] after
    ["Yosys "] for the system one), each number of at most 4300 digits,
    parses to the three numbers; without the distance component the
    distance is 0.  [rest] is whatever follows the last number. *)
Theorem C5_version_parsing (w : World) (d1 d2 rest : string) :
  number d1 -> number d2 -> leading_digit rest = false ->
  (String.length d1 <= int_max_str_digits)%nat ->
  (String.length d2 <= int_max_str_digits)%nat ->
  (forall d3, number d3 ->
     (String.length d3 <= int_max_str_digits)%nat ->
     builtin_reports w (d1 ++ "." ++ d2 ++ ".post" ++ d3 ++ rest) ->
     builtin_version w = inr (PyStr.int d1, PyStr.int d2, PyStr.int d3)) /\
  (distance_ahead ".post" rest = false ->
     builtin_reports w (d1 ++ "." ++ d2 ++ rest) ->
     builtin_version w = inr (PyStr.int d1, PyStr.int d2, 0)) /\
  (forall d3, number d3 ->
     (String.length d3 <= int_max_str_digits)%nat ->
     system_prints w ("Yosys " ++ d1 ++ "." ++ d2 ++ "+" ++ d3 ++ rest) ->
     system_version w = inr (PyStr.int d1, PyStr.int d2, PyStr.int d3)) /\
  (distance_ahead "+" rest = false ->
     system_prints w ("Yosys " ++ d1 ++ "." ++ d2 ++ rest) ->
     system_version w = inr (PyStr.int d1, PyStr.int d2, 0)).
Proof.
  intros H1 H2 Hr L1 L2.
  assert (With : forall d3,
            (String.length d3 <= int_max_str_digits)%nat ->
            version_of_match (Some (d1, d2, Some d3))
            = inr (PyStr.int d1, PyStr.int d2, PyStr.int d3)).
  { intros d3 L3. cbn [version_of_match].
    now rewrite !int_of_str_within by assumption. }
  assert (Without : version_of_match (Some (d1, d2, None))
                    = inr (PyStr.int d1, PyStr.int d2, 0)).
  { cbn [version_of_match]. now rewrite !int_of_str_within by assumption. }
  repeat split.
  - intros d3 H3 L3 Hw. rewrite (builtin_version_reported w _ Hw).
    unfold builtin_version_re.
    pose proof (match_version_distance EmptyString ".post" d1 d2 d3 rest
                  (fun _ => eq_refl) H1 H2 H3 Hr) as E.
    cbn [append] in E |- *. rewrite E. now apply With.
  - intros Hd Hw. rewrite (builtin_version_reported w _ Hw).
    unfold builtin_version_re.
    pose proof (match_version_plain EmptyString ".post" d1 d2 rest
                  H1 H2 Hr Hd) as E.
    cbn [append] in E |- *. rewrite E. exact Without.
  - intros d3 H3 L3 Hw. rewrite (system_version_printed w _ Hw).
    rewrite strip_banner_yosys. unfold system_version_re.
    rewrite (match_version_distance "Yosys " "+" d1 d2 d3 rest
               (fun _ => eq_refl) H1 H2 H3 Hr).
    now apply With.
  - intros Hd Hw. rewrite (system_version_printed w _ Hw).
    rewrite strip_banner_yosys. unfold system_version_re.
    rewrite (match_version_plain "Yosys " "+" d1 d2 rest H1 H2 Hr Hd).
    exact Without.
Qed.

Lemma short_number (d : string) :
  (String.length d <=? int_max_str_digits)%nat = true ->
  (String.length d <= int_max_str_digits)%nat.
Proof. apply Nat.leb_le. Qed.

Lemma number_of_digits (d : string) :
  d <> EmptyString -> PyStr.all_digits d = true -> number d.
Proof. now split. Qed.

Lemma C5_version_parsing_witness :
  builtin_version
    (machine None (Some "0.9.post4547.dev18") false EmptyString 0)
  = inr (0, 9, 4547) /\
  builtin_version (machine None (Some "0.9.dev18") false EmptyString 0)
  = inr (0, 9, 0) /\
  system_version (machine None None true "Yosys 0.9+3672 (git sha1)" 0)
  = inr (0, 9, 3672) /\
  system_version (machine None None true "Yosys 0.10 (git sha1)" 0)
  = inr (0, 10, 0).
Proof.
  assert (N0 : number "0") by (now apply number_of_digits).
  assert (N9 : number "9") by (now apply number_of_digits).
  assert (N10 : number "10") by (now apply number_of_digits).
  assert (S1 : (String.length "0" <= int_max_str_digits)%nat)
    by (apply short_number; reflexivity).
  assert (S2 : (String.length "10" <= int_max_str_digits)%nat)
    by (apply short_number; reflexivity).
  assert (S4 : (String.length "4547" <= int_max_str_digits)%nat)
    by (apply short_number; reflexivity).
  split; [| split; [| split]].
  - apply (proj1 (C5_version_parsing _ "0" "9" ".dev18" N0 N9 eq_refl S1 S1)
             "4547"); [now apply number_of_digits | exact S4 |].
    eexists. split; reflexivity.
  - apply (proj1 (proj2 (C5_version_parsing _ "0" "9" ".dev18"
                           N0 N9 eq_refl S1 S1))); [reflexivity |].
    eexists. split; reflexivity.
  - apply (proj1 (proj2 (proj2 (C5_version_parsing _ "0" "9" " (git sha1)"
                                  N0 N9 eq_refl S1 S1))) "3672");
      [now apply number_of_digits | exact S4 |].
    do 2 eexists. split; reflexivity.
  - apply (proj2 (proj2 (proj2 (C5_version_parsing _ "0" "10" " (git sha1)"
                                  N0 N10 eq_refl S1 S2))));
      [reflexivity |].
    do 2 eexists. split; reflexivity.
Defined.

(** ** The banner pattern of [_SystemYosys.run] *)

Lemma length_append (a b : string) :
  String.length (a ++ b) = (String.length a + String.length b)%nat.
Proof. induction a as [| c a IH]; cbn; [reflexivity | now rewrite IH]. Qed.

(** [span_line] splits the text, takes no line feed, and stops at one or
    at the end. *)
Lemma span_line_inv (s : string) :
  s = fst (PyStr.span_line s) ++ snd (PyStr.span_line s) /\
  PyStr.mem_char PyStr.nl (fst (PyStr.span_line s)) = false /\
  (snd (PyStr.span_line s) = EmptyString \/
   exists r, snd (PyStr.span_line s) = String PyStr.nl r).
Proof.
  induction s as [| c s [IH1 [IH2 IH3]]]; [cbn; auto |].
  cbn [PyStr.span_line].
  destruct (Ascii.eqb_spec c PyStr.nl) as [-> | Hc].
  - cbn [fst snd append PyStr.mem_char]. repeat split. right. now exists s.
  - destruct (PyStr.span_line s) as [d r].
    cbn [fst snd append PyStr.mem_char] in *.
    repeat split; [now f_equal | | assumption].
    rewrite IH2, orb_false_r. apply Ascii.eqb_neq. congruence.
Qed.

Lemma span_line_app (l r : string) :
  PyStr.mem_char PyStr.nl l = false ->
  PyStr.span_line (l ++ String PyStr.nl r) = (l, String PyStr.nl r).
Proof.
  induction l as [| c l IH]; intros H; [reflexivity |].
  cbn [PyStr.mem_char] in H. apply orb_false_iff in H.
  destruct H as [Hc Hl].
  cbn [append PyStr.span_line]. rewrite Ascii.eqb_sym, Hc.
  now rewrite (IH Hl).
Qed.

(** One round of the star removes a banner line and its line feed. *)
Lemma banner_line_of_banner (l rest : string) :
  banner l -> banner_line (l ++ String PyStr.nl rest) = Some rest.
Proof.
  intros [Hnl [-> | [c [r ->]]]]; [reflexivity |].
  change (("-- " ++ String c r) ++ String PyStr.nl rest)
    with (String "-" (String "-" (String " "
            (String c r ++ String PyStr.nl rest)))).
  change (PyStr.mem_char PyStr.nl ("-- " ++ String c r))
    with (PyStr.mem_char PyStr.nl (String c r)) in Hnl.
  unfold banner_line.
  change (Ascii.eqb "-" PyStr.nl) with false. cbn iota.
  change (PyStr.drop_prefix "-- "
            (String "-" (String "-" (String " "
               (String c r ++ String PyStr.nl rest)))))
    with (Some (String c r ++ String PyStr.nl rest)).
  cbn iota beta. rewrite span_line_app by assumption. reflexivity.
Qed.

(** And nothing else. *)
Lemma banner_line_inv (s r : string) :
  banner_line s = Some r ->
  exists l, banner l /\ s = l ++ String PyStr.nl r.
Proof.
  unfold banner_line. destruct s as [| c s]; [discriminate |].
  destruct (Ascii.eqb_spec c PyStr.nl) as [-> | Hc].
  - intros H. inversion H; subst. exists EmptyString.
    split; [split; [reflexivity | now left] | reflexivity].
  - destruct (PyStr.drop_prefix "-- " (String c s)) as [r1 |] eqn:E;
      [| discriminate].
    apply drop_prefix_inv in E.
    destruct (span_line_inv r1) as [S1 [M1 T1]].
    destruct (PyStr.span_line r1) as [a b]. cbn [fst snd] in *.
    destruct a as [| x a]; [discriminate |].
    destruct b as [| y b]; [discriminate |].
    intros H. inversion H; subst b.
    destruct T1 as [T1 | [r' T1]]; [discriminate |].
    inversion T1; subst y r'.
    exists ("-- " ++ String x a). split.
    + split; [exact M1 | right; now exists x, a].
    + rewrite E, S1. reflexivity.
Qed.

Lemma banner_line_none (s : string) :
  banner_line s = None <-> ~ starts_with_banner s.
Proof.
  split.
  - intros H [l [rest [Hl ->]]].
    rewrite banner_line_of_banner in H by assumption. discriminate.
  - intros H. destruct (banner_line s) as [r |] eqn:E; [| reflexivity].
    exfalso. apply H. destruct (banner_line_inv s r E) as [l [Hl ->]].
    now exists l, r.
Qed.

Lemma banner_line_shorter (s r : string) :
  banner_line s = Some r -> (String.length r < String.length s)%nat.
Proof.
  intros H. destruct (banner_line_inv s r H) as [l [_ ->]].
  rewrite length_append. cbn. lia.
Qed.

(** Fuel beyond the length of the text changes nothing. *)
Lemma strip_banner_fuel_enough (n m : nat) (s : string) :
  (String.length s <= n)%nat -> (String.length s <= m)%nat ->
  strip_banner_fuel n s = strip_banner_fuel m s.
Proof.
  revert m s. induction n as [| n IH]; intros m s Hn Hm.
  - destruct s; [| cbn in Hn; lia]. now destruct m.
  - destruct m as [| m].
    + destruct s; [reflexivity | cbn in Hm; lia].
    + cbn. destruct (banner_line s) as [r |] eqn:E; [| reflexivity].
      apply banner_line_shorter in E. apply IH; lia.
Qed.

(** The equation of the star: take a banner line and go on, or stop. *)
Lemma strip_banner_unfold (s : string) :
  strip_banner s
  = match banner_line s with
    | Some r => strip_banner r
    | None => s
    end.
Proof.
  unfold strip_banner. destruct s as [| c s]; [reflexivity |].
  cbn [String.length strip_banner_fuel].
  destruct (banner_line (String c s)) as [r |] eqn:E; [| reflexivity].
  apply banner_line_shorter in E. cbn in E.
  apply strip_banner_fuel_enough; lia.
Qed.

Lemma strip_banner_fuel_done (n : nat) (s : string) :
  (String.length s <= n)%nat ->
  banner_line (strip_banner_fuel n s) = None.
Proof.
  revert s. induction n as [| n IH]; intros s Hn.
  - destruct s; [reflexivity | cbn in Hn; lia].
  - cbn. destruct (banner_line s) as [r |] eqn:E; [| assumption].
    apply banner_line_shorter in E. apply IH. lia.
Qed.

Lemma strip_banner_done (s : string) : banner_line (strip_banner s) = None.
Proof. now apply strip_banner_fuel_done. Qed.

Lemma strip_banner_no_banner (s : string) :
  ~ starts_with_banner s -> strip_banner s = s.
Proof.
  intros H. apply banner_line_none in H.
  now rewrite strip_banner_unfold, H.
Qed.

Lemma strip_banner_text (ls : list string) (content : string) :
  Forall banner ls ->
  strip_banner (banner_text ls ++ content) = strip_banner content.
Proof.
  induction 1 as [| l ls Hl _ IH]; [reflexivity |].
  cbn [banner_text]. rewrite append_assoc. cbn [append].
  rewrite strip_banner_unfold, banner_line_of_banner by assumption.
  exact IH.
Qed.

(** C6: the source says of the licence text that it is made of empty lines
    and of lines starting with [--], and that these are removed.  At the
    output [-- ], line feed, [hello], whose first line is the marker and
    nothing more, [_SystemYosys.run] removes nothing: the pattern asks for
    at least one character after the marker, and the text comes back whole
    instead of as [hello]. *)
Lemma C6_marker_only_line_kept :
  PyStr.starts_with "-- " "-- " = true /\
  strip_banner ("-- " ++ String PyStr.nl "hello")
  = "-- " ++ String PyStr.nl "hello" /\
  system_run
    (machine None None true ("-- " ++ String PyStr.nl "hello") 0)
    ["-p"; "help"] EmptyString
  = inr ("-- " ++ String PyStr.nl "hello") /\
  "-- " ++ String PyStr.nl "hello" <> "hello".
Proof.
  split; [reflexivity |]. split; [reflexivity |]. split; [reflexivity |].
  discriminate.
Qed.

(** X14: what the cleaning does with the lines the pattern takes (an empty
    line, or the marker ["-- "] followed by at least one more character,
    ended by a line feed).  Standard output made of such lines followed by
    content that does not start with one comes back as that content;
    output that does not start with such a line comes back unchanged;
    cleaning twice is cleaning once; [_SystemYosys.run] returns the cleaned
    output of a process that exits with 0, and [_BuiltinYosys.run] returns
    the output as it is. *)
Theorem X14_cleaning_of_pattern_lines (w : World) (args : list string)
  (stdin out err : string) :
  (forall ls content,
     Forall banner ls -> ~ starts_with_banner content ->
     strip_banner (banner_text ls ++ content) = content) /\
  (~ starts_with_banner out -> strip_banner out = out) /\
  strip_banner (strip_banner out) = strip_banner out /\
  (forall path,
     require_tool w YOSYS_BINARY = inr path ->
     popen w (path :: args) stdin = inr (out, err, 0) ->
     system_run w args stdin = inr (strip_banner out)) /\
  (popen w (sys_executable w :: "-m" :: YOSYS_PACKAGE :: args) stdin
   = inr (out, err, 0) ->
   builtin_run w args stdin = inr out).
Proof.
  split; [| split; [| split; [| split]]].
  - intros ls content Hls Hc.
    rewrite strip_banner_text by assumption.
    now apply strip_banner_no_banner.
  - apply strip_banner_no_banner.
  - rewrite (strip_banner_unfold (strip_banner out)).
    now rewrite strip_banner_done.
  - intros path Hp Hr. unfold system_run. now rewrite Hp, Hr.
  - intros Hr. unfold builtin_run. now rewrite Hr.
Qed.

Lemma banner_marker_line : banner "-- Verific license".
Proof. split; [reflexivity |]. right. now exists "V"%char, "erific license". Qed.

Lemma banner_empty_line : banner EmptyString.
Proof. split; [reflexivity | now left]. Qed.

Lemma X14_cleaning_of_pattern_lines_witness :
  strip_banner
    (banner_text ["-- Verific license"; EmptyString] ++ "Yosys 0.9")
  = "Yosys 0.9" /\
  builtin_run
    (machine None None false
       (banner_text ["-- Verific license"; EmptyString] ++ "Yosys 0.9") 0)
    ["-V"] EmptyString
  = inr (banner_text ["-- Verific license"; EmptyString] ++ "Yosys 0.9").
Proof.
  split.
  - apply (proj1 (X14_cleaning_of_pattern_lines scenario_world [] EmptyString
                    EmptyString EmptyString)).
    + constructor; [exact banner_marker_line |].
      constructor; [exact banner_empty_line | constructor].
    + apply banner_line_none. reflexivity.
  - apply (proj2 (proj2 (proj2 (proj2
             (X14_cleaning_of_pattern_lines
                (machine None None false
                   (banner_text ["-- Verific license"; EmptyString]
                    ++ "Yosys 0.9") 0)
                ["-V"] EmptyString
                (banner_text ["-- Verific license"; EmptyString]
                 ++ "Yosys 0.9")
                EmptyString))))).
    reflexivity.
Defined.

(** ** The Gowin platform *)

Import GowinGW1NPlatform.

Lemma command_templates_distinct :
  relocate_command <> yosys_command /\ relocate_command <> gw_sh_command.
Proof. split; apply String.eqb_neq; vm_compute; reflexivity. Qed.

(** C8: the command templates are, in this order, the [yosys] synthesis,
    the [gw_sh] place and route, and the [bash] step that copies
    [impl/pnr/{{name}}.fs] to the build directory, each with exactly the
    words given here; the copy is the last element of the list.  Run by
    the executor, whatever the steps do, the copy is started exactly when
    the synthesis and then the place and route have succeeded, it is
    started after them, and its own failure is the reported result, at
    position 3. *)
Theorem C8_relocation_is_last (state err : Type)
  (run_step : string -> state -> err + state) (st : state) :
  command_templates {| toolchain := "Gowin" |}
  = inr [yosys_command; gw_sh_command; relocate_command] /\
  last _gowin_command_templates EmptyString = relocate_command /\
  words yosys_command
  = ["{{invoke_tool(" ++ Q ++ "yosys" ++ Q ++ ")}}";
     "{{quiet(" ++ Q ++ "-q" ++ Q ++ ")}}";
     "{{get_override(" ++ Q ++ "yosys_opts" ++ Q ++ ")|options}}";
     "-l"; "{{name}}.rpt"; "{{name}}.ys"] /\
  words gw_sh_command
  = ["{{invoke_tool(" ++ Q ++ "gw_sh" ++ Q ++ ")}}"; "run.tcl"] /\
  words relocate_command
  = ["{{invoke_tool(" ++ Q ++ "bash" ++ Q ++ ")}}"; "-c"; Q;
     "cp"; "-f"; "impl/pnr/{{name}}.fs"; "./"; Q] /\
  (In relocate_command
      (snd (fst (execute run_step _gowin_command_templates st))) <->
   exists st1 st2,
     run_step yosys_command st = inr st1 /\
     run_step gw_sh_command st1 = inr st2) /\
  (forall e,
     run_step yosys_command st = inl e ->
     execute run_step _gowin_command_templates st
     = (Failure 1 yosys_command e, [yosys_command], st)) /\
  (forall st1 e,
     run_step yosys_command st = inr st1 ->
     run_step gw_sh_command st1 = inl e ->
     execute run_step _gowin_command_templates st
     = (Failure 2 gw_sh_command e, [yosys_command; gw_sh_command], st1)) /\
  (forall st1 st2,
     run_step yosys_command st = inr st1 ->
     run_step gw_sh_command st1 = inr st2 ->
     execute run_step _gowin_command_templates st
     = match run_step relocate_command st2 with
       | inl e =>
           (Failure 3 relocate_command e,
            [yosys_command; gw_sh_command; relocate_command], st2)
       | inr st3 =>
           (Success, [yosys_command; gw_sh_command; relocate_command], st3)
       end).
Proof.
  destruct command_templates_distinct as [Hy Hg].
  unfold execute, _gowin_command_templates.
  cbn [execute_from].
  split; [reflexivity |]. split; [reflexivity |].
  split; [vm_compute; reflexivity |].
  split; [vm_compute; reflexivity |].
  split; [vm_compute; reflexivity |].
  split; [| split; [| split]].
  - destruct (run_step yosys_command st) as [e | st1] eqn:E1.
    + cbn [fst snd]. split.
      * intros [H | []]. now elim Hy.
      * intros [st1 [st2 [H _]]]. discriminate H.
    + destruct (run_step gw_sh_command st1) as [e | st2] eqn:E2.
      * cbn [fst snd]. split.
        -- intros [H | [H | []]]; [now elim Hy | now elim Hg].
        -- intros [st1' [st2 [H1 H2]]]. inversion H1; subst st1'.
           rewrite E2 in H2. discriminate H2.
      * split.
        -- intros _. exists st1, st2. now split.
        -- intros _.
           destruct (run_step relocate_command st2); cbn [fst snd];
             right; right; now left.
  - intros e ->. reflexivity.
  - intros st1 e -> ->. reflexivity.
  - intros st1 st2 -> ->.
    now destruct (run_step relocate_command st2).
Qed.

(** When the place and route fails, the copy is never started. *)
Lemma C8_relocation_is_last_witness :
  execute pnr_fails _gowin_command_templates []
  = (Failure 2 gw_sh_command "place and route failed",
     [yosys_command; gw_sh_command], [yosys_command]).
Proof.
  apply (proj1 (proj2 (proj2 (proj2 (proj2 (proj2 (proj2 (proj2
           (C8_relocation_is_last (list string) string pnr_fails []))))))))
           [yosys_command] "place and route failed");
    vm_compute; reflexivity.
Defined.

Lemma starts_with_iff (t s : string) :
  PyStr.starts_with t s = true <-> exists post, s = t ++ post.
Proof.
  unfold PyStr.starts_with. split.
  - destruct (PyStr.drop_prefix t s) as [r |] eqn:E; [| discriminate].
    intros _. exists r. now apply drop_prefix_inv.
  - intros [post ->]. now rewrite drop_prefix_app.
Qed.

(** Python's [t in s] on strings is "[t] is a run of [s]". *)
Lemma contains_iff (s t : string) :
  PyStr.contains s t = true <-> is_run t s.
Proof.
  unfold is_run. split.
  - induction s as [| c s IH].
    + cbn [PyStr.contains]. rewrite orb_false_r. intros H.
      apply starts_with_iff in H. destruct H as [post ->].
      now exists EmptyString, post.
    + cbn [PyStr.contains]. intros H. apply orb_true_iff in H.
      destruct H as [H | H].
      * apply starts_with_iff in H. destruct H as [post ->].
        now exists EmptyString, post.
      * destruct (IH H) as [pre [post ->]].
        now exists (String c pre), post.
  - intros [pre [post ->]].
    induction pre as [| c pre IH].
    + assert (H : PyStr.starts_with t (t ++ post) = true)
        by (apply starts_with_iff; now exists post).
      cbn [append]. destruct (t ++ post); cbn [PyStr.contains];
        now rewrite H.
    + cbn [append PyStr.contains]. rewrite IH. apply orb_true_r.
Qed.

(** C9: [__init__] lets [toolchain] through exactly when it is a run of
    characters of ["Gowin"]; ["win"], ["Gow"] and the empty string pass;
    and whenever a value other than ["Gowin"] has passed, the properties
    [required_tools], [file_templates] and [command_templates] raise
    [AssertionError]. *)
Theorem C9_toolchain_containment (toolchain : string)
  (build_script_templates : list (string * string)) :
  ((exists self, __init__ toolchain = inr self) <-> is_run toolchain "Gowin")
  /\
  (forall self,
     __init__ toolchain = inr self -> toolchain <> "Gowin" ->
     required_tools self = inl AssertionError /\
     file_templates build_script_templates self = inl AssertionError /\
     command_templates self = inl AssertionError) /\
  (__init__ "win" = inr {| GowinGW1NPlatform.toolchain := "win" |} /\
   __init__ "Gow" = inr {| GowinGW1NPlatform.toolchain := "Gow" |} /\
   __init__ EmptyString
   = inr {| GowinGW1NPlatform.toolchain := EmptyString |}).
Proof.
  split; [| split; [| repeat split]].
  - unfold __init__. rewrite <- contains_iff.
    destruct (PyStr.contains "Gowin" toolchain); split; intros H.
    + reflexivity.
    + eexists; reflexivity.
    + destruct H; discriminate.
    + discriminate.
  - intros self Hinit Hne. unfold __init__ in Hinit.
    destruct (PyStr.contains "Gowin" toolchain); [| discriminate].
    inversion Hinit; subst self.
    unfold required_tools, file_templates, command_templates.
    cbn [GowinGW1NPlatform.toolchain].
    apply String.eqb_neq in Hne. now rewrite Hne.
Qed.

Lemma C9_toolchain_containment_witness :
  is_run "win" "Gowin" /\
  required_tools {| GowinGW1NPlatform.toolchain := "win" |}
  = inl AssertionError /\
  file_templates [] {| GowinGW1NPlatform.toolchain := "win" |}
  = inl AssertionError /\
  command_templates {| GowinGW1NPlatform.toolchain := "win" |}
  = inl AssertionError.
Proof.
  split.
  - apply (proj1 (C9_toolchain_containment "win" [])).
    eexists; reflexivity.
  - apply (proj1 (proj2 (C9_toolchain_containment "win" []))).
    + reflexivity.
    + discriminate.
Defined.

(** ** More on [find_yosys]: what it returns and what it asks *)

Lemma search_sound (w : World) (requirement : version_t -> bool)
  (ps : list YosysBinary) (tr tr' : list probe) (p : YosysBinary) :
  search w requirement ps tr = (inr (Some p), tr') ->
  In p ps /\ accepted w requirement p.
Proof.
  revert tr. induction ps as [| q ps IH]; intros tr H.
  - discriminate H.
  - destruct (available_of w q) eqn:Ha.
    + rewrite search_available in H by assumption.
      destruct (version_of w q) as [e | v] eqn:Hv; [discriminate H |].
      destruct (requirement v) eqn:Hr.
      * inversion H; subst. split; [now left |].
        split; [assumption |]. now exists v.
      * destruct (IH _ H) as [Hin Hacc]. split; [now right | assumption].
    + rewrite search_unavailable in H by assumption.
      destruct (IH _ H) as [Hin Hacc]. split; [now right | assumption].
Qed.

(** X1: whatever proxy [find_yosys] returns is named by a clause of the
    configured order, is available, and has a version that [version()]
    returns and the requirement accepts. *)
Theorem X1_find_yosys_sound (w : World) (requirement : version_t -> bool)
  (tr tr' : list probe) (p : YosysBinary) :
  find_yosys w requirement tr = (inr p, tr') ->
  In (clause_name p) (clauses_of_environ w) /\
  available_of w p = true /\
  exists v, version_of w p = inr v /\ requirement v = true.
Proof.
  intros H. destruct (provider_order w) as [e | ps] eqn:Ho.
  - rewrite (find_yosys_bad_clause w requirement tr e Ho) in H.
    discriminate H.
  - rewrite (find_yosys_order w requirement ps tr Ho) in H.
    destruct (search w requirement ps tr) as [[e | [q |]] tr''] eqn:Hs;
      try discriminate H.
    inversion H; subst q tr''.
    destruct (search_sound w requirement ps tr tr' p Hs) as [Hin Hacc].
    split; [| exact Hacc].
    rewrite <- (provider_order_names w ps Ho). now apply in_map.
Qed.

Lemma X1_find_yosys_sound_witness :
  In "builtin" ["system"; "builtin"] /\
  available_of scenario_world _BuiltinYosys = true /\
  exists v,
    version_of scenario_world _BuiltinYosys = inr v /\
    major_at_least 2 v = true.
Proof.
  apply (X1_find_yosys_sound scenario_world (major_at_least 2) []
           [CallAvailable _SystemYosys; CallVersion _SystemYosys;
            CallAvailable _BuiltinYosys; CallVersion _BuiltinYosys]
           _BuiltinYosys).
  reflexivity.
Defined.

(** X2: the clauses are all checked before any proxy is asked anything.  If
    the configured order holds a clause that is neither ["builtin"] nor
    ["system"], [find_yosys] raises the error of the first such clause and
    the call log is untouched, even when an earlier clause names a proxy
    that would have been returned. *)
Theorem X2_clauses_checked_first (w : World)
  (requirement : version_t -> bool) (tr : list probe)
  (good : list string) (c : string) (rest : list string) :
  clauses_of_environ w = (good ++ c :: rest)%list ->
  Forall recognized good ->
  ~ recognized c ->
  find_yosys w requirement tr = (inl (unrecognized_clause c), tr).
Proof.
  intros E Hg Hc. apply find_yosys_bad_clause.
  unfold provider_order. rewrite E. now apply collect_proxies_stops.
Qed.

Lemma X2_clauses_checked_first_witness :
  accepted (machine (Some "builtin,bogus") (Some "2.3") false EmptyString 0)
    (major_at_least 2) _BuiltinYosys /\
  find_yosys (machine (Some "builtin,bogus") (Some "2.3") false EmptyString 0)
    (major_at_least 2) []
  = (inl (YosysError
            "The NMIGEN_USE_YOSYS environment variable contains an unrecognized clause 'bogus'"),
     []).
Proof.
  split.
  - split; [reflexivity |]. exists (2, 3, 0). split; reflexivity.
  - apply (X2_clauses_checked_first
             (machine (Some "builtin,bogus") (Some "2.3") false EmptyString 0)
             (major_at_least 2) [] ["builtin"] "bogus" []).
    + reflexivity.
    + constructor; [now left | constructor].
    + intros [H | H]; discriminate H.
Defined.

Lemma probes_cons (w : World) (p : YosysBinary) (ps : list YosysBinary) :
  probes w (p :: ps) = (probes_of w p ++ probes w ps)%list.
Proof. reflexivity. Qed.

Lemma probes_version_available (w : World) (ps : list YosysBinary)
  (p : YosysBinary) :
  In (CallVersion p) (probes w ps) -> In p ps /\ available_of w p = true.
Proof.
  induction ps as [| q ps IH]; [intros [] |].
  rewrite probes_cons. intros H. apply in_app_or in H.
  destruct H as [H | H].
  - unfold probes_of in H. destruct (available_of w q) eqn:Ha.
    + destruct H as [H | [H | []]]; [discriminate H |].
      inversion H; subst. split; [now left | assumption].
    + destruct H as [H | []]. discriminate H.
  - destruct (IH H) as [Hin Ha]. split; [now right | assumption].
Qed.

(** The log of the second loop: the calls on the candidates it reached. *)
Lemma search_log (w : World) (requirement : version_t -> bool)
  (ps : list YosysBinary) (tr : list probe) :
  exists k,
    (k <= List.length ps)%nat /\
    (ps <> [] -> 1 <= k)%nat /\
    snd (search w requirement ps tr) = (tr ++ probes w (firstn k ps))%list.
Proof.
  revert tr. induction ps as [| p ps IH]; intros tr.
  - exists 0%nat. cbn. repeat split; [lia | congruence |].
    now rewrite app_nil_r.
  - assert (Hone : (tr ++ probes_of w p)%list
                   = (tr ++ probes w (firstn 1 (p :: ps)))%list).
    { cbn [firstn]. rewrite probes_cons. cbn [probes flat_map].
      now rewrite app_nil_r. }
    assert (Hmore : forall k,
               ((tr ++ probes_of w p) ++ probes w (firstn k ps))%list
               = (tr ++ probes w (firstn (S k) (p :: ps)))%list).
    { intros k. cbn [firstn]. rewrite probes_cons. now rewrite app_assoc. }
    destruct (available_of w p) eqn:Ha.
    + rewrite search_available by assumption.
      assert (Hp : probes_of w p = [CallAvailable p; CallVersion p])
        by (unfold probes_of; now rewrite Ha).
      rewrite <- Hp.
      destruct (version_of w p) as [e | v];
        [exists 1%nat; cbn [snd List.length];
         repeat split; [lia | lia | exact Hone] |].
      destruct (requirement v);
        [exists 1%nat; cbn [snd List.length];
         repeat split; [lia | lia | exact Hone] |].
      destruct (IH (tr ++ probes_of w p)%list) as [k [Hk [_ Hl]]].
      exists (S k). cbn [List.length]. repeat split; [lia | lia |].
      rewrite Hl. apply Hmore.
    + rewrite search_unavailable by assumption.
      assert (Hp : probes_of w p = [CallAvailable p])
        by (unfold probes_of; now rewrite Ha).
      rewrite <- Hp.
      destruct (IH (tr ++ probes_of w p)%list) as [k [Hk [_ Hl]]].
      exists (S k). cbn [List.length]. repeat split; [lia | lia |].
      rewrite Hl. apply Hmore.
Qed.

(** X3: when every clause is known, the calls of one [find_yosys] are those
    on an initial part of the configured order, at least its first proxy:
    [available()] on each, and [version()] on those and only those whose
    [available()] was true.  No proxy is asked out of order, and
    [version()] is never called on an unavailable one. *)
Theorem X3_calls_follow_the_order (w : World)
  (requirement : version_t -> bool) (ps : list YosysBinary)
  (tr : list probe) :
  provider_order w = inr ps ->
  exists k,
    (1 <= k <= List.length ps)%nat /\
    snd (find_yosys w requirement tr)
    = (tr ++ probes w (firstn k ps))%list /\
    forall p, In (CallVersion p) (probes w (firstn k ps)) ->
              available_of w p = true.
Proof.
  intros Ho.
  assert (Hne : ps <> []).
  { intros ->. apply provider_order_names in Ho. cbn in Ho.
    symmetry in Ho. revert Ho. apply split_nonempty. }
  destruct (search_log w requirement ps tr) as [k [Hk [H1 Hl]]].
  exists k. split; [split; [now apply H1 | assumption] |]. split.
  - rewrite (find_yosys_order w requirement ps tr Ho).
    destruct (search w requirement ps tr) as [[e | [q |]] tr'];
      cbn [snd] in *; assumption.
  - intros p Hp. now apply (probes_version_available w (firstn k ps) p).
Qed.

Lemma X3_calls_follow_the_order_witness :
  exists k,
    (1 <= k <= 2)%nat /\
    snd (find_yosys (bare_world (Some "builtin,system")) (major_at_least 0) [])
    = probes (bare_world (Some "builtin,system"))
        (firstn k [_BuiltinYosys; _SystemYosys]) /\
    forall p,
      In (CallVersion p)
         (probes (bare_world (Some "builtin,system"))
            (firstn k [_BuiltinYosys; _SystemYosys])) ->
      available_of (bare_world (Some "builtin,system")) p = true.
Proof.
  exact (X3_calls_follow_the_order (bare_world (Some "builtin,system"))
           (major_at_least 0) [_BuiltinYosys; _SystemYosys] [] eq_refl).
Defined.

(** ** More on [version()] *)

(** The groups of a match hold digits only. *)
Lemma match_version_digits (lead mark s g1 g2 : string) (g3 : option string) :
  match_version lead mark s = Some (g1, g2, g3) ->
  PyStr.all_digits g1 = true /\ PyStr.all_digits g2 = true /\
  forall d, g3 = Some d -> PyStr.all_digits d = true.
Proof.
  unfold match_version.
  destruct (PyStr.drop_prefix lead s) as [s0 |]; [| discriminate].
  destruct (span_digits_inv s0) as [_ [D1 _]].
  destruct (PyStr.span_digits s0) as [a1 r1]. cbn [fst snd] in *.
  destruct a1 as [| c1 a1]; [discriminate |].
  destruct (PyStr.drop_prefix "." r1) as [r2 |]; [| discriminate].
  destruct (span_digits_inv r2) as [_ [D2 _]].
  destruct (PyStr.span_digits r2) as [a2 r3]. cbn [fst snd] in *.
  destruct a2 as [| c2 a2]; [discriminate |].
  destruct (PyStr.drop_prefix mark r3) as [r4 |].
  - destruct (span_digits_inv r4) as [_ [D3 _]].
    destruct (fst (PyStr.span_digits r4)) as [| c3 a3];
      intros H; inversion H; subst; repeat split; try assumption;
      intros d Hd; [discriminate Hd | now inversion Hd; subst].
  - intros H; inversion H; subst; repeat split; try assumption.
    intros d Hd; discriminate Hd.
Qed.

Lemma version_of_match_nonneg (lead mark s : string) (a b c : Z) :
  version_of_match (match_version lead mark s) = inr (a, b, c) ->
  0 <= a /\ 0 <= b /\ 0 <= c.
Proof.
  destruct (match_version lead mark s) as [[[g1 g2] g3] |] eqn:E;
    [| discriminate].
  destruct (match_version_digits lead mark s g1 g2 g3 E) as [D1 [D2 D3]].
  cbn [version_of_match]. unfold int_of_str.
  destruct (int_max_str_digits <? String.length g1)%nat; [discriminate |].
  destruct (int_max_str_digits <? String.length g2)%nat; [discriminate |].
  destruct g3 as [d |].
  - destruct (int_max_str_digits <? String.length d)%nat; [discriminate |].
    intros H. inversion H; subst.
    repeat split; apply int_nonneg; auto.
  - intros H. inversion H; subst.
    repeat split; try (apply int_nonneg; assumption). lia.
Qed.

(** X4: every version that [version()] returns, from either proxy, has a
    major number, a minor number and a distance that are not negative. *)
Theorem X4_version_not_negative (w : World) (p : YosysBinary) (a b c : Z) :
  version_of w p = inr (a, b, c) -> 0 <= a /\ 0 <= b /\ 0 <= c.
Proof.
  destruct p; cbn [version_of].
  - unfold builtin_version.
    destruct (metadata_version w YOSYS_PACKAGE) as [e | [s |]];
      [discriminate | | discriminate].
    apply version_of_match_nonneg.
  - unfold system_version.
    destruct (system_run w ["-V"] EmptyString) as [e | s];
      [discriminate |].
    apply version_of_match_nonneg.
Qed.

Lemma X4_version_not_negative_witness :
  version_of scenario_world _BuiltinYosys = inr (2, 3, 5) /\
  (0 <= 2 /\ 0 <= 3 /\ 0 <= 5).
Proof.
  split; [reflexivity |].
  apply (X4_version_not_negative scenario_world _BuiltinYosys 2 3 5).
  reflexivity.
Defined.

Lemma version_of_match_errors (m : option match_t) (e : exn) :
  version_of_match m = inl e ->
  e = TypeError "'NoneType' object is not subscriptable" \/
  exists msg, e = ValueError msg.
Proof.
  destruct m as [[[g1 g2] g3] |]; cbn [version_of_match];
    [| intros H; inversion H; now left].
  unfold int_of_str.
  destruct (int_max_str_digits <? String.length g1)%nat;
    [intros H; inversion H; right; eauto |].
  destruct (int_max_str_digits <? String.length g2)%nat;
    [intros H; inversion H; right; eauto |].
  destruct g3 as [d |]; [| discriminate].
  destruct (int_max_str_digits <? String.length d)%nat;
    [intros H; inversion H; right; eauto | discriminate].
Qed.

(** X5: [available()] of the packaged proxy guards its [version()].  When
    it is true, the lookup that [version()] repeats succeeds, and
    [version()] is the parse of what the metadata reports: it can raise the
    [TypeError] of a missing version or of a text the pattern does not
    match, or the [ValueError] of a number with too many digits, and
    nothing else.  When it is false, [version()] raises: [AttributeError]
    without [importlib_metadata], and [PackageNotFoundError] without the
    package. *)
Theorem X5_builtin_available_guards_version (w : World) :
  (available_of w _BuiltinYosys = true ->
   (exists lookup reported,
      importlib_metadata w = Some lookup /\
      lookup YOSYS_PACKAGE = Some reported /\
      version_of w _BuiltinYosys
      = match reported with
        | Some s => version_of_match (builtin_version_re s)
        | None =>
            inl (TypeError
                   "expected string or bytes-like object, got 'NoneType'")
        end) /\
   forall e, version_of w _BuiltinYosys = inl e ->
     e = TypeError "expected string or bytes-like object, got 'NoneType'" \/
     e = TypeError "'NoneType' object is not subscriptable" \/
     exists msg, e = ValueError msg) /\
  (available_of w _BuiltinYosys = false ->
   (importlib_metadata w = None /\
    version_of w _BuiltinYosys
    = inl (AttributeError "'NoneType' object has no attribute 'version'"))
   \/
   (importlib_metadata w <> None /\
    version_of w _BuiltinYosys = inl (PackageNotFoundError "nmigen_yosys"))).
Proof.
  cbn [available_of version_of].
  unfold builtin_available, builtin_version, metadata_version.
  destruct (importlib_metadata w) as [lookup |] eqn:Hm.
  - destruct (lookup YOSYS_PACKAGE) as [reported |] eqn:Hl.
    + split; [| discriminate]. intros _. split.
      * exists lookup, reported. split; [reflexivity |].
        split; [exact Hl |]. now destruct reported.
      * intros e. destruct reported as [s |].
        -- intros H. right. now apply (version_of_match_errors _ e H).
        -- intros H. inversion H. now left.
    + split; [discriminate |]. intros _. right. split;
        [discriminate | reflexivity].
  - split; [discriminate |]. intros _. left. now split.
Qed.

(** A package installed without a version in its metadata. *)
Lemma X5_builtin_available_guards_version_witness :
  (forall e,
     version_of no_version_world _BuiltinYosys = inl e ->
     e = TypeError "expected string or bytes-like object, got 'NoneType'" \/
     e = TypeError "'NoneType' object is not subscriptable" \/
     exists msg, e = ValueError msg) /\
  ((importlib_metadata (bare_world None) = None /\
    version_of (bare_world None) _BuiltinYosys
    = inl (AttributeError "'NoneType' object has no attribute 'version'"))
   \/
   (importlib_metadata (bare_world None) <> None /\
    version_of (bare_world None) _BuiltinYosys
    = inl (PackageNotFoundError "nmigen_yosys"))).
Proof.
  split.
  - apply (proj1 (X5_builtin_available_guards_version no_version_world)).
    reflexivity.
  - apply (proj2 (X5_builtin_available_guards_version (bare_world None))).
    reflexivity.
Defined.

(** X6: a licence banner in front of the output of [yosys -V] does not
    change what [_SystemYosys.version] gives: the result is the same as on
    a machine whose [yosys -V] prints the text without the banner lines. *)
Theorem X6_banner_does_not_change_version (w w' : World)
  (ls : list string) (s : string) :
  Forall banner ls ->
  system_prints w (banner_text ls ++ s) ->
  system_prints w' s ->
  system_version w = system_version w'.
Proof.
  intros Hls Hw Hw'.
  rewrite (system_version_printed w _ Hw), (system_version_printed w' _ Hw').
  now rewrite strip_banner_text.
Qed.

Lemma X6_banner_does_not_change_version_witness :
  system_version
    (machine None None true
       (banner_text ["-- Verific license"; EmptyString] ++ "Yosys 0.9+3672")
       0)
  = system_version (machine None None true "Yosys 0.9+3672" 0).
Proof.
  apply (X6_banner_does_not_change_version _ _
           ["-- Verific license"; EmptyString] "Yosys 0.9+3672").
  - constructor; [exact banner_marker_line |].
    constructor; [exact banner_empty_line | constructor].
  - do 2 eexists. split; reflexivity.
  - do 2 eexists. split; reflexivity.
Defined.

(** ** More on the banner pattern *)

Lemma strip_banner_fuel_splits (n : nat) (s : string) :
  exists ls, Forall banner ls /\ s = banner_text ls ++ strip_banner_fuel n s.
Proof.
  revert s. induction n as [| n IH]; intros s.
  - exists []. now split.
  - cbn [strip_banner_fuel].
    destruct (banner_line s) as [r |] eqn:E.
    + destruct (banner_line_inv s r E) as [l [Hl ->]].
      destruct (IH r) as [ls [Hls Hr]].
      exists (l :: ls). split; [now constructor |].
      cbn [banner_text]. rewrite append_assoc. cbn [append].
      now rewrite <- Hr.
    + exists []. now split.
Qed.

(** X7: the cleaning of the standard output only takes banner lines off the
    front.  Every text is some banner lines followed by its cleaned form,
    the cleaned form does not start with a banner line, and it is never
    longer than the text. *)
Theorem X7_strip_banner_takes_a_prefix (s : string) :
  exists ls,
    Forall banner ls /\
    s = banner_text ls ++ strip_banner s /\
    ~ starts_with_banner (strip_banner s) /\
    (String.length (strip_banner s) <= String.length s)%nat.
Proof.
  destruct (strip_banner_fuel_splits (String.length s) s) as [ls [Hls Hs]].
  exists ls. fold (strip_banner s) in Hs.
  split; [assumption |]. split; [assumption |]. split.
  - apply banner_line_none. apply strip_banner_done.
  - rewrite Hs at 2. rewrite length_append. lia.
Qed.

(** ** [run]: a process that fails *)










(** ** The configured order, read back *)

Lemma join_split (sep : ascii) (s : string) :
  PyStr.join (String sep EmptyString) (PyStr.split sep s) = s.
Proof.
  induction s as [| c s IH]; [reflexivity |].
  cbn [PyStr.split].
  destruct (Ascii.eqb_spec c sep) as [-> | Hc].
  - destruct (PyStr.split sep s) as [| x xs] eqn:E;
      [now apply split_nonempty in E |].
    change (PyStr.join (String sep EmptyString) (EmptyString :: x :: xs))
      with (String sep (PyStr.join (String sep EmptyString) (x :: xs))).
    now rewrite IH.
  - destruct (PyStr.split sep s) as [| x xs] eqn:E;
      [now apply split_nonempty in E |].
    destruct xs as [| y ys].
    + cbn [PyStr.join] in *. now rewrite IH.
    + change (PyStr.join (String sep EmptyString) (String c x :: y :: ys))
        with (String c (PyStr.join (String sep EmptyString) (x :: y :: ys))).
      now rewrite IH.
Qed.

(** X9: when every clause is known, the list of proxies is never empty, it
    has one proxy per clause, and it says what the variable held: the names
    of the proxies joined by commas are the value of [NMIGEN_USE_YOSYS],
    character for character. *)
Theorem X9_order_reads_back (w : World) (ps : list YosysBinary) (v : string) :
  provider_order w = inr ps ->
  environ w "NMIGEN_USE_YOSYS" = Some v ->
  ps <> [] /\
  List.length ps = List.length (PyStr.split "," v) /\
  PyStr.join "," (map clause_name ps) = v.
Proof.
  intros Ho He. apply provider_order_names in Ho.
  unfold clauses_of_environ in Ho. rewrite He in Ho.
  split; [| split].
  - intros ->. cbn in Ho. symmetry in Ho. revert Ho. apply split_nonempty.
  - rewrite <- Ho. now rewrite length_map.
  - rewrite Ho. apply join_split.
Qed.

Lemma X9_order_reads_back_witness :
  [_BuiltinYosys; _SystemYosys; _BuiltinYosys] <> [] /\
  List.length [_BuiltinYosys; _SystemYosys; _BuiltinYosys]
  = List.length (PyStr.split "," "builtin,system,builtin") /\
  PyStr.join "," (map clause_name [_BuiltinYosys; _SystemYosys; _BuiltinYosys])
  = "builtin,system,builtin".
Proof.
  apply (X9_order_reads_back (bare_world (Some "builtin,system,builtin"))
           [_BuiltinYosys; _SystemYosys; _BuiltinYosys]
           "builtin,system,builtin");
    reflexivity.
Defined.

(** ** The Gowin platform: device names and file templates *)

Lemma split_no_sep (sep : ascii) (s : string) :
  PyStr.mem_char sep s = false -> PyStr.split sep s = [s].
Proof.
  induction s as [| c s IH]; [reflexivity |].
  cbn [PyStr.mem_char PyStr.split]. intros H.
  apply orb_false_iff in H. destruct H as [Hc Hs].
  rewrite Ascii.eqb_sym, Hc. now rewrite (IH Hs).
Qed.

Lemma split_app_sep (sep : ascii) (a r : string) :
  PyStr.mem_char sep a = false ->
  PyStr.split sep (a ++ String sep r) = a :: PyStr.split sep r.
Proof.
  induction a as [| c a IH]; intros H.
  - cbn [append PyStr.split]. now rewrite Ascii.eqb_refl.
  - cbn [PyStr.mem_char] in H. apply orb_false_iff in H.
    destruct H as [Hc Ha].
    cbn [append PyStr.split]. rewrite Ascii.eqb_sym, Hc.
    now rewrite (IH Ha).
Qed.

(** X10: [_device_suffix] is the part of the device name between its first
    and its second dash (or the end, if there is one dash only); a device
    name without a dash makes it raise [IndexError].  [family] returns
    ["GW1N"], and only for a device name that starts with these letters. *)
Theorem X10_device_name_parts (a b rest : string) :
  PyStr.mem_char "-" a = false ->
  PyStr.mem_char "-" b = false ->
  _device_suffix a = inl (IndexError "list index out of range") /\
  _device_suffix (a ++ "-" ++ b) = inr b /\
  _device_suffix (a ++ "-" ++ b ++ "-" ++ rest) = inr b /\
  (forall device f,
     family device = inr f ->
     f = "GW1N" /\ exists post, device = "GW1N" ++ post) /\
  family ("GW1N" ++ rest) = inr "GW1N".
Proof.
  intros Ha Hb. unfold _device_suffix.
  split; [| split; [| split; [| split]]].
  - now rewrite split_no_sep.
  - change (a ++ "-" ++ b) with (a ++ String "-" b).
    rewrite split_app_sep by assumption.
    now rewrite split_no_sep.
  - change (a ++ "-" ++ b ++ "-" ++ rest)
      with (a ++ String "-" (b ++ String "-" rest)).
    rewrite split_app_sep by assumption.
    now rewrite split_app_sep.
  - intros device f. unfold family.
    destruct (PyStr.starts_with "GW1N" device) eqn:E; [| discriminate].
    intros H. inversion H. split; [reflexivity |].
    now apply starts_with_iff.
  - reflexivity.
Qed.

Lemma X10_device_name_parts_witness :
  _device_suffix "GW1N" = inl (IndexError "list index out of range") /\
  _device_suffix ("GW1N" ++ "-" ++ "1") = inr "1" /\
  _device_suffix ("GW1N" ++ "-" ++ "1" ++ "-" ++ "C6") = inr "1" /\
  (forall device f,
     family device = inr f ->
     f = "GW1N" /\ exists post, device = "GW1N" ++ post) /\
  family ("GW1N" ++ "C6") = inr "GW1N".
Proof.
  apply (X10_device_name_parts "GW1N" "1" "C6"); reflexivity.
Defined.

Lemma dict_get_set_same (k v : string) (d : list (string * string)) :
  dict_get k (dict_set k v d) = Some v.
Proof.
  induction d as [| [k' v'] d IH]; cbn [dict_set dict_get].
  - now rewrite String.eqb_refl.
  - destruct (String.eqb k k') eqn:E; cbn [dict_get].
    + now rewrite String.eqb_refl.
    + rewrite E. exact IH.
Qed.

Lemma dict_get_set_other (k k' v : string) (d : list (string * string)) :
  k <> k' -> dict_get k (dict_set k' v d) = dict_get k d.
Proof.
  intros Hne. induction d as [| [k0 v0] d IH]; cbn [dict_set dict_get].
  - apply String.eqb_neq in Hne. now rewrite Hne.
  - destruct (String.eqb_spec k' k0) as [<- | Hk]; cbn [dict_get].
    + apply String.eqb_neq in Hne. now rewrite Hne.
    + destruct (String.eqb k k0); [reflexivity | exact IH].
Qed.

Lemma dict_keys_set (k v : string) (d : list (string * string)) :
  map fst (dict_set k v d) = map fst d \/
  (~ In k (map fst d) /\ map fst (dict_set k v d) = (map fst d ++ [k])%list).
Proof.
  induction d as [| [k' v'] d IH]; cbn [dict_set map fst].
  - right. split; [intros [] | reflexivity].
  - destruct (String.eqb_spec k k') as [<- | Hk]; cbn [map fst].
    + now left.
    + destruct IH as [-> | [Hn ->]]; [now left |].
      right. split; [| reflexivity].
      intros [H | H]; [now apply Hk | now apply Hn].
Qed.

Lemma dict_set_nodup (k v : string) (d : list (string * string)) :
  NoDup (map fst d) -> NoDup (map fst (dict_set k v d)).
Proof.
  intros H. destruct (dict_keys_set k v d) as [-> | [Hn ->]];
    [assumption |].
  apply NoDup_app; [assumption | repeat constructor; intros [] |].
  intros x Hx [<- | []]. now apply Hn.
Qed.

Lemma merged_other (own base : list (string * string)) (k : string) :
  ~ In k (map fst own) ->
  dict_get k (fold_left (fun d kv => dict_set (fst kv) (snd kv) d) own base)
  = dict_get k base.
Proof.
  revert base.
  induction own as [| [k' v'] own IH]; intros base Hn; [reflexivity |].
  cbn [fold_left fst snd]. rewrite IH.
  - apply dict_get_set_other. intros ->. apply Hn. now left.
  - intros H. apply Hn. now right.
Qed.

Lemma merged_own (own base : list (string * string)) (k v : string) :
  NoDup (map fst own) -> In (k, v) own ->
  dict_get k (fold_left (fun d kv => dict_set (fst kv) (snd kv) d) own base)
  = Some v.
Proof.
  revert base.
  induction own as [| [k' v'] own IH]; intros base Hnd Hin; [destruct Hin |].
  cbn [map fst] in Hnd. inversion Hnd as [| ? ? Hk' Hnd']; subst.
  cbn [fold_left fst snd]. destruct Hin as [H | H].
  - inversion H; subst.
    rewrite merged_other by assumption. apply dict_get_set_same.
  - now apply IH.
Qed.

Lemma merged_nodup (own base : list (string * string)) :
  NoDup (map fst base) ->
  NoDup (map fst
           (fold_left (fun d kv => dict_set (fst kv) (snd kv) d) own base)).
Proof.
  revert base.
  induction own as [| [k' v'] own IH]; intros base H; [assumption |].
  cbn [fold_left fst snd]. apply IH. now apply dict_set_nodup.
Qed.

Lemma gowin_own_keys_nodup : NoDup (map fst gowin_own_file_templates).
Proof.
  cbn [map fst gowin_own_file_templates].
  repeat (constructor;
          [cbn [In]; intros H;
           repeat (destruct H as [H | H]; [discriminate H |]);
           exact H |]).
  constructor.
Qed.

(** X11: in [_gowin_file_templates] the platform's own templates win over
    the inherited build script templates: each of its file names maps to
    its own text whatever [build_script_templates] holds under that name,
    every other file name maps to what [build_script_templates] gives it,
    and no file name occurs twice. *)
Theorem X11_file_templates_merge
  (build_script_templates : list (string * string)) (k : string) :
  (forall v, In (k, v) gowin_own_file_templates ->
     dict_get k (_gowin_file_templates build_script_templates) = Some v) /\
  (~ In k (map fst gowin_own_file_templates) ->
     dict_get k (_gowin_file_templates build_script_templates)
     = dict_get k build_script_templates) /\
  (NoDup (map fst build_script_templates) ->
     NoDup (map fst (_gowin_file_templates build_script_templates))).
Proof.
  unfold _gowin_file_templates.
  split; [| split].
  - intros v Hin. apply merged_own; [apply gowin_own_keys_nodup | exact Hin].
  - apply merged_other.
  - apply merged_nodup.
Qed.

Lemma X11_file_templates_merge_witness :
  dict_get "build_top.sh"
    (_gowin_file_templates
       [("run.tcl", "inherited"); ("build_top.sh", "inherited")])
  = Some "inherited" /\
  NoDup (map fst
           (_gowin_file_templates
              [("run.tcl", "inherited"); ("build_top.sh", "inherited")])).
Proof.
  split.
  - rewrite (proj1 (proj2 (X11_file_templates_merge
                             [("run.tcl", "inherited");
                              ("build_top.sh", "inherited")]
                             "build_top.sh"))); [reflexivity |].
    cbn [map fst gowin_own_file_templates In]. intros H.
    repeat (destruct H as [H | H]; [discriminate H |]). exact H.
  - apply (proj2 (proj2 (X11_file_templates_merge
                           [("run.tcl", "inherited");
                            ("build_top.sh", "inherited")]
                           EmptyString))).
    repeat constructor; cbn [In]; intros H;
      repeat (destruct H as [H | H]; [discriminate H |]); exact H.
Defined.

(** ** [find_yosys]: every way it can end *)

Lemma search_outcomes (w : World) (requirement : version_t -> bool)
  (ps : list YosysBinary) (tr : list probe) :
  (exists p, In p ps /\ accepted w requirement p /\
             fst (search w requirement ps tr) = inr (Some p)) \/
  (exists p e, In p ps /\ available_of w p = true /\
               version_of w p = inl e /\
               fst (search w requirement ps tr) = inl e) \/
  (Forall (rejected w requirement) ps /\
   fst (search w requirement ps tr) = inr None).
Proof.
  revert tr. induction ps as [| p ps IH]; intros tr.
  - right. right. split; [constructor | reflexivity].
  - assert (Hnext : forall tr',
              rejected w requirement p ->
              search w requirement (p :: ps) tr
              = search w requirement ps tr' ->
              (exists q, In q (p :: ps) /\ accepted w requirement q /\
                 fst (search w requirement (p :: ps) tr) = inr (Some q)) \/
              (exists q e, In q (p :: ps) /\ available_of w q = true /\
                 version_of w q = inl e /\
                 fst (search w requirement (p :: ps) tr) = inl e) \/
              (Forall (rejected w requirement) (p :: ps) /\
               fst (search w requirement (p :: ps) tr) = inr None)).
    { intros tr' Hrej ->.
      destruct (IH tr') as [[q [Hin [Ha Hf]]] |
                            [[q [e [Hin [Ha [Hv Hf]]]]] | [Hall Hf]]].
      - left. exists q. repeat split; try assumption; try apply Ha.
        now right.
      - right. left. exists q, e. repeat split; try assumption. now right.
      - right. right. split; [now constructor | assumption]. }
    destruct (available_of w p) eqn:Ha.
    + pose proof (search_available w requirement p ps tr Ha) as Hs.
      destruct (version_of w p) as [e | v] eqn:Hv.
      * right. left. exists p, e. rewrite Hs.
        repeat split; try assumption. now left.
      * destruct (requirement v) eqn:Hr.
        -- left. exists p. rewrite Hs. split; [now left |].
           split; [| reflexivity]. split; [assumption | now exists v].
        -- apply (Hnext _ (or_intror (ex_intro _ v (conj Hv Hr))) Hs).
    + apply (Hnext _ (or_introl Ha)
               (search_unavailable w requirement p ps tr Ha)).
Qed.




Lemma search_requirement_ext (w : World)
  (requirement requirement' : version_t -> bool)
  (ps : list YosysBinary) (tr : list probe) :
  (forall p v, In p ps -> version_of w p = inr v ->
               requirement v = requirement' v) ->
  search w requirement ps tr = search w requirement' ps tr.
Proof.
  revert tr. induction ps as [| p ps IH]; intros tr H; [reflexivity |].
  assert (H' : forall q v, In q ps -> version_of w q = inr v ->
                 requirement v = requirement' v).
  { intros q v Hq. apply H. now right. }
  destruct (available_of w p) eqn:Ha.
  - rewrite !search_available by assumption.
    destruct (version_of w p) as [e | v] eqn:Hv; [reflexivity |].
    rewrite <- (H p v (or_introl eq_refl) Hv).
    destruct (requirement v); [reflexivity | now apply IH].
  - rewrite !search_unavailable by assumption. now apply IH.
Qed.

(** X13: [find_yosys] uses the requirement only on the versions that the
    configured proxies report: two requirements that agree on those
    versions give the same result and the same calls. *)
Theorem X13_requirement_only_on_reported_versions (w : World)
  (requirement requirement' : version_t -> bool) (tr : list probe) :
  (forall p v, In (clause_name p) (clauses_of_environ w) ->
               version_of w p = inr v ->
               requirement v = requirement' v) ->
  find_yosys w requirement tr = find_yosys w requirement' tr.
Proof.
  intros H. destruct (provider_order w) as [e | ps] eqn:Ho.
  - now rewrite !(find_yosys_bad_clause w _ tr e Ho).
  - rewrite !(find_yosys_order w _ ps tr Ho).
    rewrite (search_requirement_ext w requirement requirement' ps tr);
      [reflexivity |].
    intros p v Hp. apply H.
    rewrite <- (provider_order_names w ps Ho). now apply in_map.
Qed.

Lemma X13_requirement_only_on_reported_versions_witness :
  find_yosys scenario_world (major_at_least 2) []
  = find_yosys scenario_world (fun v => snd v =? 5) [].
Proof.
  apply (X13_requirement_only_on_reported_versions scenario_world
           (major_at_least 2) (fun v => snd v =? 5) []).
  intros [|] v _ Hv; vm_compute in Hv; inversion Hv; reflexivity.
Defined.
